(** * US county GDP pipeline (BEA): a shallow embedding

    The development follows the two scripts of the repository:

    - [USCountyGDPDatabase(2004-2022).py]: [fetch_county_gdp],
      [process_bea_data], [create_database] and [main];
    - [USCountyGDPcsvCode2022.py]: [get_county_gdp_by_state],
      [print_gdp_by_state] and the lines that call them.

    Conventions of the embedding.

    - A pandas column of floats is a list of [option Q]: [None] is NaN (the
      SQL NULL once written by [to_sql]).  Arithmetic is exact; the rounding
      of binary floating point is not modelled.
    - Text is [string]; the character classes of the regular expressions are
      given for ASCII text.
    - A function that can raise returns a [py_result]. *)

From Stdlib Require Import List String Ascii Bool Arith ZArith QArith Lia.
From Stdlib Require Import Lqa.
From Stdlib Require DecimalString DecimalNat DecimalFacts.
From Stdlib Require Import Permutation.
Import ListNotations.

Local Open Scope string_scope.
Local Open Scope Z_scope.

(** ** Python results *)

Inductive py_result (A : Type) : Type :=
| Returns (a : A)
| Raises (exn : string).
Arguments Returns {A} a.
Arguments Raises {A} exn.

(** ** Text helpers *)

Module Text.

Definition chars := list ascii.

Definition of_string (s : string) : chars := list_ascii_of_string s.
Definition to_string (l : chars) : string := string_of_list_ascii l.

Definition code (c : ascii) : nat := nat_of_ascii c.

Definition between (lo hi : nat) (c : ascii) : bool :=
  (Nat.leb lo (code c) && Nat.leb (code c) hi)%bool.

Definition is_digit (c : ascii) : bool := between 48 57 c.
Definition is_upper (c : ascii) : bool := between 65 90 c.
Definition is_lower (c : ascii) : bool := between 97 122 c.

(** [\w] on ASCII text: letters, digits and the underscore. *)
Definition is_word (c : ascii) : bool :=
  (is_digit c || is_upper c || is_lower c || Nat.eqb (code c) 95)%bool.

(** The blanks skipped around a number: space, \t, \n, \v, \f, \r. *)
Definition is_space (c : ascii) : bool :=
  (Nat.eqb (code c) 32 || between 9 13 c)%bool.

Definition newline : ascii := ascii_of_nat 10.
Definition is_newline (c : ascii) : bool := Nat.eqb (code c) 10.

(** [s.replace(',', '')] *)
Definition remove_commas (l : chars) : chars :=
  filter (fun c => negb (Ascii.eqb c ","%char)) l.

Fixpoint drop_while (p : ascii -> bool) (l : chars) : chars :=
  match l with
  | c :: t => if p c then drop_while p t else l
  | [] => []
  end.

Fixpoint take_while (p : ascii -> bool) (l : chars) : chars :=
  match l with
  | c :: t => if p c then c :: take_while p t else []
  | [] => []
  end.

(** The anchor [$] matches at the end of the text or just before a newline
    that ends the text.  On the reversed text: the part the anchored suffix
    has to end, and the newline that is left after it. *)
Definition before_dollar (r : chars) : chars * chars :=
  match r with
  | c :: t => if is_newline c then (t, [c]) else (r, [])
  | [] => ([], [])
  end.

End Text.

(** ** [pd.to_numeric] on a text cell

    The accepted shape is the one of the pandas float tokenizer: blanks,
    an optional sign, digits with an optional fractional part (at least one
    digit in all), an optional exponent, blanks.  Values are exact
    rationals, so the spellings of an infinity, which pandas reads as a
    float, are outside the model: they count as text that is no number. *)

Module Numeric.
Import Text.

Definition digit_val (c : ascii) : Z := Z.of_nat (code c - 48).

(** Reads a run of digits: its value after [acc], how many were read,
    and the rest. *)
Fixpoint read_digits (acc : Z) (n : nat) (l : chars) : Z * nat * chars :=
  match l with
  | c :: t =>
      if is_digit c then read_digits (10 * acc + digit_val c) (S n) t
      else (acc, n, l)
  | [] => (acc, n, [])
  end.

Definition read_sign (l : chars) : bool * chars :=
  match l with
  | c :: t =>
      if Ascii.eqb c "-"%char then (true, t)
      else if Ascii.eqb c "+"%char then (false, t)
      else (false, l)
  | [] => (false, [])
  end.

(** The exponent part, when there is one: its value and the rest. *)
Definition read_exponent (l : chars) : option (Z * chars) :=
  match l with
  | c :: t =>
      if (Ascii.eqb c "e"%char || Ascii.eqb c "E"%char)%bool then
        let '(neg, t1) := read_sign t in
        let '(e, n, t2) := read_digits 0 0%nat t1 in
        match n with
        | O => None
        | S _ => Some (if neg then - e else e, t2)
        end
      else Some (0, l)
  | [] => Some (0, [])
  end.

Definition parse_number (l : chars) : option Q :=
  let l0 := drop_while is_space l in
  let '(neg, l1) := read_sign l0 in
  let '(ip, ni, l2) := read_digits 0 0%nat l1 in
  let '(m, nf, l3) :=
    match l2 with
    | c :: t =>
        if Ascii.eqb c "."%char then
          let '(m, nf, t') := read_digits ip 0%nat t in (m, nf, t')
        else (ip, 0%nat, l2)
    | [] => (ip, 0%nat, [])
    end in
  match (ni + nf)%nat with
  | O => None
  | S _ =>
      match read_exponent l3 with
      | None => None
      | Some (e, l4) =>
          match drop_while is_space l4 with
          | [] =>
              let mant := if neg then - m else m in
              Some (Qred (inject_Z mant
                          * Qpower (inject_Z 10) (e - Z.of_nat nf)))
          | _ :: _ => None
          end
      end
  end.

(** The three spellings of a cell: a number, a missing value (the empty
    cell, or the three letters of NaN in any case), or no number at all. *)
Inductive cell :=
| Number (q : Q)
| Missing
| Invalid.

Definition lower (c : ascii) : ascii :=
  if is_upper c then ascii_of_nat (code c + 32) else c.

Definition spells_nan (l : chars) : bool :=
  String.eqb (to_string (map lower l)) "nan".

Definition parse_cell (s : string) : cell :=
  match of_string s with
  | [] => Missing
  | l =>
      match parse_number l with
      | Some q => Number q
      | None => if spells_nan l then Missing else Invalid
      end
  end.

(** [pd.to_numeric(col, errors='coerce')] on one cell: what is not a
    number is NaN. *)
Definition to_numeric_coerce (s : string) : option Q :=
  match parse_cell s with
  | Number q => Some q
  | Missing | Invalid => None
  end.

(** [pd.to_numeric(col)] (errors='raise') on a whole column: the first cell
    that is no number and no missing value raises [ValueError]. *)
Fixpoint to_numeric (col : list string) : py_result (list (option Q)) :=
  match col with
  | [] => Returns []
  | s :: t =>
      match parse_cell s with
      | Invalid => Raises "ValueError"
      | c =>
          match to_numeric t with
          | Returns qs =>
              Returns (match c with Number q => Some q | _ => None end :: qs)
          | Raises e => Raises e
          end
      end
  end.

End Numeric.

(** ** The regular expressions of the two scripts *)

Module Regex.
Import Text.

(** [str.extract] of line 50 on one cell.  The pattern is: a first group of
    any characters (dot, star), a comma, a space, a second group of two [\w],
    then [$].  The two-character code sits right before [$]; the name is
    what the first group takes before the comma: the text back to the
    start, or back to the last newline, since the dot does not cross one and
    the search takes the leftmost start that matches. *)
Definition extract_name_state (s : string) : option (string * string) :=
  match fst (before_dollar (rev (of_string s))) with
  | b :: a :: sp :: co :: rest =>
      if (is_word a && is_word b
          && Ascii.eqb sp " "%char && Ascii.eqb co ","%char)%bool
      then Some (to_string (rev (take_while (fun c => negb (is_newline c)) rest)),
                 to_string [a; b])
      else None
  | _ => None
  end.

(** [str.extract] of line 35 of the single-year script on one cell: a
    comma, a space, a group of two [\w], then [$]. *)
Definition extract_state (s : string) : option string :=
  match fst (before_dollar (rev (of_string s))) with
  | b :: a :: sp :: co :: _ =>
      if (is_word a && is_word b
          && Ascii.eqb sp " "%char && Ascii.eqb co ","%char)%bool
      then Some (to_string [a; b])
      else None
  | _ => None
  end.

(** [str.replace] of line 36 of the single-year script on one cell: the
    pattern is the text " County, " followed by two [\w] and [$]; the
    matched suffix is cut out, a newline after it stays; a cell without the
    suffix is unchanged. *)
Definition remove_county_suffix (s : string) : string :=
  let '(r, nl) := before_dollar (rev (of_string s)) in
  match r with
  | b :: a :: rest =>
      if (is_word a && is_word b)%bool then
        match rest with
        | c9 :: c8 :: c7 :: c6 :: c5 :: c4 :: c3 :: c2 :: c1 :: rest' =>
            if String.eqb (to_string [c1; c2; c3; c4; c5; c6; c7; c8; c9])
                          " County, "
            then to_string (rev rest' ++ nl)%list
            else s
        | _ => s
        end
      else s
  | _ => s
  end.

End Regex.

(** ** Record Normalizer: [process_bea_data] *)

Module Normalizer.

(** One row of the raw table built from the API's [Data] array. *)
Record raw_row := mk_raw {
  GeoFips : string;
  GeoName : string;
  DataValue : string;
  TimePeriod : string
}.

(** The columns [process_bea_data] adds to a row. *)
Record county_record := mk_county {
  fips_code : string;
  county_name : option string;
  state_code : option string;
  gdp_billions : option Q;
  year : option Q
}.

(** Line 47: commas removed, parsed with errors='coerce', divided by 1000. *)
Definition gdp_of (r : raw_row) : option Q :=
  option_map (fun q => Qred (q / inject_Z 1000))
    (Numeric.to_numeric_coerce
       (Text.to_string (Text.remove_commas (Text.of_string (DataValue r))))).

(** Line 50: both columns come from the one match, or both are missing. *)
Definition name_of (r : raw_row) : option string :=
  option_map fst (Regex.extract_name_state (GeoName r)).

Definition state_of (r : raw_row) : option string :=
  option_map snd (Regex.extract_name_state (GeoName r)).

(** A row once its year is known. *)
Definition normalize_row (r : raw_row) (y : option Q) : county_record :=
  {| fips_code := GeoFips r;
     county_name := name_of r;
     state_code := state_of r;
     gdp_billions := gdp_of r;
     year := y |}.

Fixpoint zip_rows (rows : list raw_row) (ys : list (option Q))
  : list county_record :=
  match rows, ys with
  | r :: rows', y :: ys' => normalize_row r y :: zip_rows rows' ys'
  | _, _ => []
  end.

(** [process_bea_data(df)]: [None] for no frame or an empty one; the year
    column is parsed last and strictly (line 56), so one cell of text that
    is no number raises for the whole frame. *)
Definition process_bea_data (df : option (list raw_row))
  : py_result (option (list county_record)) :=
  match df with
  | None => Returns None
  | Some [] => Returns None
  | Some rows =>
      match Numeric.to_numeric (map TimePeriod rows) with
      | Raises e => Raises e
      | Returns ys => Returns (Some (zip_rows rows ys))
      end
  end.

End Normalizer.

(** ** The single-year script: lines 33-37 of [get_county_gdp_by_state] *)

Module SingleYear.
Import Normalizer.

(** The raw columns stay in the frame; four columns are added. *)
Record cleaned_row := mk_cleaned {
  raw : raw_row;
  GDP : option Q;
  State : option string;
  County : string;
  GDP_Billions : option Q
}.

Definition clean_row (r : raw_row) : cleaned_row :=
  let gdp := Numeric.to_numeric_coerce
               (Text.to_string (Text.remove_commas (Text.of_string (DataValue r)))) in
  {| raw := r;
     GDP := gdp;
     State := Regex.extract_state (GeoName r);
     County := Regex.remove_county_suffix (GeoName r);
     GDP_Billions := option_map (fun q => Qred (q / inject_Z 1000000)) gdp |}.

Definition clean (rows : list raw_row) : list cleaned_row := map clean_row rows.

End SingleYear.

(** ** Sorting *)

Section Sorting.
Context {A : Type} (before : A -> A -> bool).

Fixpoint insert_sorted (x : A) (l : list A) : list A :=
  match l with
  | [] => [x]
  | y :: t => if before x y then x :: l else y :: insert_sorted x t
  end.

Fixpoint isort (l : list A) : list A :=
  match l with
  | [] => []
  | x :: t => insert_sorted x (isort t)
  end.

End Sorting.

(** ** Aggregator: the [groupby] of [create_database] (lines 90-94) *)

Module Aggregator.
Import Normalizer.

(** A group key: a state code and a year.  Years are compared as numbers. *)
Definition key := (string * Q)%type.

Definition key_eqb (k1 k2 : key) : bool :=
  (String.eqb (fst k1) (fst k2) && Qeq_bool (snd k1) (snd k2))%bool.

(** The key of a row; a row without a state code or without a year has
    none ([groupby] drops the rows with a missing key). *)
Definition key_of (r : county_record) : option key :=
  match state_code r, year r with
  | Some st, Some y => Some (st, y)
  | _, _ => None
  end.

(** One row of [state_summaries], in the column order of line 94. *)
Record state_summary := mk_summary {
  sum_state_code : string;
  sum_year : Q;
  total_gdp : Q;
  num_counties : nat
}.

Definition summary_key (g : state_summary) : key := (sum_state_code g, sum_year g).

(** ['sum'] and ['count'] of the [gdp_billions] column see one more cell:
    a missing value is skipped by both. *)
Definition observe (v : option Q) (g : state_summary) : state_summary :=
  match v with
  | None => g
  | Some q =>
      {| sum_state_code := sum_state_code g;
         sum_year := sum_year g;
         total_gdp := (total_gdp g + q)%Q;
         num_counties := S (num_counties g) |}
  end.

Definition empty_group (k : key) : state_summary :=
  {| sum_state_code := fst k; sum_year := snd k;
     total_gdp := 0%Q; num_counties := 0%nat |}.

(** A cell enters the group of its key, opening the group at need. *)
Fixpoint add_cell (k : key) (v : option Q) (gs : list state_summary)
  : list state_summary :=
  match gs with
  | [] => [observe v (empty_group k)]
  | g :: t =>
      if key_eqb (summary_key g) k then observe v g :: t
      else g :: add_cell k v t
  end.

Definition add_row (gs : list state_summary) (r : county_record)
  : list state_summary :=
  match key_of r with
  | Some k => add_cell k (gdp_billions r) gs
  | None => gs
  end.

(** The groups, one pass over the rows in order. *)
Definition group_rows (rows : list county_record) : list state_summary :=
  fold_left add_row rows [].

(** [groupby] sorts the groups by key. *)
Definition key_leb (g1 g2 : state_summary) : bool :=
  match String.compare (sum_state_code g1) (sum_state_code g2) with
  | Lt => true
  | Gt => false
  | Eq => match Qcompare (sum_year g1) (sum_year g2) with
          | Gt => false
          | _ => true
          end
  end.

Definition state_summaries (rows : list county_record) : list state_summary :=
  isort key_leb (group_rows rows).

(** The rows that carry a state code. *)
Definition has_state (r : county_record) : bool :=
  match state_code r with
  | Some _ => true
  | None => false
  end.

(** The rows of a group, and the values present in a column. *)
Definition in_group (k : key) (r : county_record) : bool :=
  match key_of r with
  | Some k' => key_eqb k k'
  | None => false
  end.

Definition members (k : key) (rows : list county_record) : list county_record :=
  filter (in_group k) rows.

Fixpoint present (col : list (option Q)) : list Q :=
  match col with
  | [] => []
  | Some q :: t => q :: present t
  | None :: t => present t
  end.

Definition Qsum (l : list Q) : Q := fold_right Qplus 0%Q l.

(** The values of the GDP column present in the group of [k]. *)
Definition vals (k : key) (rows : list county_record) : list Q :=
  present (map gdp_billions (members k rows)).

(** What a group has to hold once [rows] have been seen. *)
Definition exact (rows : list county_record) (g : state_summary) : Prop :=
  (total_gdp g == Qsum (vals (summary_key g) rows))%Q
  /\ num_counties g = List.length (vals (summary_key g) rows).

(** No two groups with keys that meet. *)
Fixpoint distinct (gs : list state_summary) : Prop :=
  match gs with
  | [] => True
  | g :: t =>
      (forall g', In g' t -> key_eqb (summary_key g) (summary_key g') = false)
      /\ distinct t
  end.

(** Every keyed row has its group. *)
Definition covered (rows : list county_record) (gs : list state_summary) : Prop :=
  forall r k, In r rows -> key_of r = Some k ->
              exists g, In g gs /\ key_eqb (summary_key g) k = true.

(** The three facts that hold of the groups after every row. *)
Definition grouped (rows : list county_record) (gs : list state_summary) : Prop :=
  distinct gs /\ (forall g, In g gs -> exact rows g) /\ covered rows gs.

End Aggregator.

(** ** The store: what the SQLite file holds *)

Module Store.
Import Normalizer Aggregator.

Record schema := mk_schema {
  columns : list string;
  primary_key : list string;
  foreign_key : option (list string * string)
}.

Record table (R : Type) := mk_table {
  tbl_schema : schema;
  tbl_rows : list R
}.
Arguments mk_table {R} _ _.
Arguments tbl_schema {R} _.
Arguments tbl_rows {R} _.

Record database := mk_db {
  states : option (table state_summary);
  counties : option (table county_record);
  views : list string;
  indexes : list string
}.

Definition empty_db : database :=
  {| states := None; counties := None; views := []; indexes := [] |}.

Definition states_columns : list string :=
  ["state_code"; "total_gdp"; "num_counties"; "year"].
Definition counties_columns : list string :=
  ["fips_code"; "county_name"; "state_code"; "gdp_billions"; "year"].

(** The schemas of the two CREATE TABLE statements (lines 67-87). *)
Definition states_ddl : schema :=
  {| columns := states_columns;
     primary_key := ["state_code"; "year"];
     foreign_key := None |}.
Definition counties_ddl : schema :=
  {| columns := counties_columns;
     primary_key := ["fips_code"; "year"];
     foreign_key := Some (["state_code"; "year"], "states") |}.

(** The schema [to_sql(..., index=False)] derives from a frame: its columns
    with their types, no key. *)
Definition frame_schema (cols : list string) : schema :=
  {| columns := cols; primary_key := []; foreign_key := None |}.

Definition add_name (n : string) (l : list string) : list string :=
  if existsb (String.eqb n) l then l else l ++ [n].

(** The statements of [create_database], in order.  A call of
    [to_sql(..., if_exists='replace')] is three statements of pandas: DROP
    TABLE, CREATE TABLE from the frame, and the INSERT of all rows. *)
Inductive step :=
| CreateStates          (* lines 67-75 *)
| CreateCounties        (* lines 77-87 *)
| Summaries             (* lines 90-94 *)
| DropStates            (* line 97 *)
| RecreateStates        (* line 97 *)
| InsertStates          (* line 97 *)
| DropCounties          (* lines 100-101 *)
| RecreateCounties      (* line 101 *)
| InsertCounties        (* line 101 *)
| ViewCountyGrowth      (* lines 104-117 *)
| ViewStateGrowth       (* lines 119-130 *)
| ViewRankings          (* lines 132-142 *)
| IndexStateYear        (* line 145 *)
| IndexGdp              (* line 146 *)
| IndexFipsYear         (* line 147 *)
| Commit.               (* line 150 *)

Definition step_eqb (a b : step) : bool :=
  match a, b with
  | CreateStates, CreateStates | CreateCounties, CreateCounties
  | Summaries, Summaries
  | DropStates, DropStates | RecreateStates, RecreateStates
  | InsertStates, InsertStates
  | DropCounties, DropCounties | RecreateCounties, RecreateCounties
  | InsertCounties, InsertCounties
  | ViewCountyGrowth, ViewCountyGrowth
  | ViewStateGrowth, ViewStateGrowth | ViewRankings, ViewRankings
  | IndexStateYear, IndexStateYear | IndexGdp, IndexGdp
  | IndexFipsYear, IndexFipsYear | Commit, Commit => true
  | _, _ => false
  end.

Definition program : list step :=
  [CreateStates; CreateCounties; Summaries;
   DropStates; RecreateStates; InsertStates;
   DropCounties; RecreateCounties; InsertCounties;
   ViewCountyGrowth; ViewStateGrowth; ViewRankings;
   IndexStateYear; IndexGdp; IndexFipsYear; Commit].

Definition counties_indexes : list string :=
  ["idx_counties_state_year"; "idx_counties_gdp"; "idx_counties_fips_year"].

Definition insert_rows {R} (rows : list R) (t : option (table R))
  : option (table R) :=
  match t with
  | Some t => Some (mk_table (tbl_schema t) (tbl_rows t ++ rows)%list)
  | None => None
  end.

(** The effect of one statement that succeeds, on the file.

    - CREATE TABLE IF NOT EXISTS makes the table, with its keys, only when
      there is none.
    - For [to_sql]: DROP TABLE removes the table and the indexes on it;
      CREATE TABLE makes it from the frame, columns only ([index=False], no
      key); INSERT adds all the rows in one transaction, which pandas
      commits.
    - CREATE VIEW / INDEX IF NOT EXISTS record the name when it is new.
    - No statement runs inside a transaction that is still open when the
      next one starts, so each effect is in the file at once and the final
      [commit] changes nothing. *)
Definition exec (all_data : list county_record) (s : step) (db : database)
  : database :=
  match s with
  | CreateStates =>
      match states db with
      | Some _ => db
      | None => {| states := Some (mk_table states_ddl []);
                   counties := counties db;
                   views := views db; indexes := indexes db |}
      end
  | CreateCounties =>
      match counties db with
      | Some _ => db
      | None => {| states := states db;
                   counties := Some (mk_table counties_ddl []);
                   views := views db; indexes := indexes db |}
      end
  | Summaries => db
  | DropStates =>
      {| states := None; counties := counties db;
         views := views db; indexes := indexes db |}
  | RecreateStates =>
      {| states := Some (mk_table
                           (frame_schema ["state_code"; "year"; "total_gdp"; "num_counties"])
                           []);
         counties := counties db;
         views := views db; indexes := indexes db |}
  | InsertStates =>
      {| states := insert_rows (state_summaries all_data) (states db);
         counties := counties db;
         views := views db; indexes := indexes db |}
  | DropCounties =>
      {| states := states db; counties := None;
         views := views db;
         indexes := filter (fun n => negb (existsb (String.eqb n) counties_indexes))
                           (indexes db) |}
  | RecreateCounties =>
      {| states := states db;
         counties := Some (mk_table (frame_schema counties_columns) []);
         views := views db; indexes := indexes db |}
  | InsertCounties =>
      {| states := states db;
         counties := insert_rows all_data (counties db);
         views := views db; indexes := indexes db |}
  | ViewCountyGrowth =>
      {| states := states db; counties := counties db;
         views := add_name "county_growth" (views db); indexes := indexes db |}
  | ViewStateGrowth =>
      {| states := states db; counties := counties db;
         views := add_name "state_growth" (views db); indexes := indexes db |}
  | ViewRankings =>
      {| states := states db; counties := counties db;
         views := add_name "county_rankings_by_year" (views db);
         indexes := indexes db |}
  | IndexStateYear =>
      {| states := states db; counties := counties db; views := views db;
         indexes := add_name "idx_counties_state_year" (indexes db) |}
  | IndexGdp =>
      {| states := states db; counties := counties db; views := views db;
         indexes := add_name "idx_counties_gdp" (indexes db) |}
  | IndexFipsYear =>
      {| states := states db; counties := counties db; views := views db;
         indexes := add_name "idx_counties_fips_year" (indexes db) |}
  | Commit => db
  end.

(** Runs the statements; [fails s] tells that statement [s] raises.  There
    is no handler and no rollback in [create_database]: the exception
    leaves the function and the file keeps what the statements before it
    wrote.  A statement that raises writes nothing itself (a failed INSERT
    is rolled back by pandas). *)
Fixpoint run (fails : step -> bool) (all_data : list county_record)
  (prog : list step) (db : database) : database * option step :=
  match prog with
  | [] => (db, None)
  | s :: rest =>
      if fails s then (db, Some s)
      else run fails all_data rest (exec all_data s db)
  end.

Definition create_database_with (fails : step -> bool)
  (all_data : list county_record) (db : database) : database * option step :=
  run fails all_data program db.

Definition no_failure (_ : step) : bool := false.
Definition fails_at (s0 : step) (s : step) : bool := step_eqb s0 s.

(** [create_database(all_data)] when every statement succeeds. *)
Definition create_database (all_data : list county_record) (db : database)
  : database :=
  fst (create_database_with no_failure all_data db).

Definition rows_of {R} (t : option (table R)) : list R :=
  match t with
  | Some t => tbl_rows t
  | None => []
  end.

Definition keys_of {R} (t : option (table R)) : list string :=
  match t with
  | Some t => primary_key (tbl_schema t)
  | None => []
  end.

End Store.

(** ** The views of [create_database] *)

Module Views.
Import Normalizer.

(** *** [county_growth] (lines 104-117) *)

Record growth_row := mk_growth {
  gr_fips_code : string;
  gr_county_name : option string;
  gr_state_code : option string;
  gr_year : option Q;
  gr_gdp_billions : option Q;
  annual_growth_rate : option Q
}.

(** Equal years, as the comparisons of PARTITION BY take them: numbers by
    value, the NULLs among themselves. *)
Definition same_year (a b : option Q) : bool :=
  match a, b with
  | Some x, Some y => Qeq_bool x y
  | None, None => true
  | _, _ => false
  end.

(** The ON condition, for a row of [c1] with code [fips] and year [y]: the
    same code, and [y] is the year of [c2] plus one (never true of a NULL
    year). *)
Definition is_previous (fips : string) (y : option Q) (c2 : county_record) : bool :=
  (String.eqb fips (fips_code c2)
   && match y, year c2 with
      | Some y1, Some y2 => Qeq_bool y1 (y2 + 1)
      | _, _ => false
      end)%bool.

Definition previous_of (c1 c2 : county_record) : bool :=
  is_previous (fips_code c1) (year c1) c2.

(** The invariant of the data model: a code and a year name one row. *)
Definition same_key (a b : county_record) : bool :=
  (String.eqb (fips_code a) (fips_code b) && same_year (year a) (year b))%bool.

Definition unique_keys (cs : list county_record) : Prop :=
  forall a b, In a cs -> In b cs -> same_key a b = true -> a = b.

(** SQL arithmetic: a NULL operand gives NULL, and so does a zero divisor. *)
Definition sql_div (a b : option Q) : option Q :=
  match a, b with
  | Some x, Some y => if Qeq_bool y 0 then None else Some (x / y)%Q
  | _, _ => None
  end.

Definition sql_minus_one (a : option Q) : option Q :=
  option_map (fun x => (x - 1)%Q) a.

(** [counties c1 LEFT JOIN counties c2 ON ...]: a row of [c1] comes once
    with each row of [c2] that meets the condition, or once alone. *)
Definition left_join (cs : list county_record)
  : list (county_record * option county_record) :=
  flat_map (fun c1 =>
              match filter (previous_of c1) cs with
              | [] => [(c1, None)]
              | ms => map (fun c2 => (c1, Some c2)) ms
              end) cs.

Definition select_growth (p : county_record * option county_record) : growth_row :=
  let '(c1, c2) := p in
  {| gr_fips_code := fips_code c1;
     gr_county_name := county_name c1;
     gr_state_code := state_code c1;
     gr_year := year c1;
     gr_gdp_billions := gdp_billions c1;
     annual_growth_rate :=
       sql_minus_one
         (sql_div (gdp_billions c1)
                  (match c2 with Some c => gdp_billions c | None => None end)) |}.

Definition county_growth (cs : list county_record) : list growth_row :=
  map select_growth (left_join cs).

(** *** [county_rankings_by_year] (lines 132-142) *)

Record ranking_row := mk_ranking {
  rk_state_code : option string;
  rk_county_name : option string;
  rk_gdp_billions : option Q;
  rk_year : option Q;
  rank_in_state : nat;
  rank_national : nat
}.

(** The order of ORDER BY on a REAL column: NULL is below every number. *)
Definition sql_compare (a b : option Q) : comparison :=
  match a, b with
  | None, None => Eq
  | None, Some _ => Lt
  | Some _, None => Gt
  | Some x, Some y => Qcompare x y
  end.

(** The three outcomes of a comparison, as facts about the two values. *)
Inductive sql_order : option Q -> option Q -> comparison -> Prop :=
| order_nulls : sql_order None None Eq
| order_null_first : forall y, sql_order None (Some y) Lt
| order_null_second : forall x, sql_order (Some x) None Gt
| order_eq : forall x y, (x == y)%Q -> sql_order (Some x) (Some y) Eq
| order_lt : forall x y, (x < y)%Q -> sql_order (Some x) (Some y) Lt
| order_gt : forall x y, (y < x)%Q -> sql_order (Some x) (Some y) Gt.

(** ORDER BY ... DESC: [a] may come before [b]. *)
Definition desc (a b : option Q) : bool :=
  match sql_compare a b with
  | Lt => false
  | _ => true
  end.

Definition peer (a b : option Q) : bool :=
  match sql_compare a b with
  | Eq => true
  | _ => false
  end.

Definition greater (a b : option Q) : bool :=
  match sql_compare a b with
  | Gt => true
  | _ => false
  end.

(** [RANK()]: the row number of the first peer of the row in its ordered
    partition. *)
Fixpoint first_peer (v : option Q) (pos : nat) (ordered : list (option Q)) : nat :=
  match ordered with
  | [] => pos
  | x :: t => if peer x v then pos else first_peer v (S pos) t
  end.

Definition rank (partition : list (option Q)) (v : option Q) : nat :=
  first_peer v 1 (isort desc partition).

(** PARTITION BY puts the rows with equal values together, the NULLs
    among themselves. *)
Definition same_state (a b : option string) : bool :=
  match a, b with
  | Some x, Some y => String.eqb x y
  | None, None => true
  | _, _ => false
  end.

Definition state_partition (st : option string) (y : option Q)
  (cs : list county_record) : list county_record :=
  filter (fun c => (same_state (state_code c) st && same_year (year c) y)%bool) cs.

Definition year_partition (y : option Q) (cs : list county_record)
  : list county_record :=
  filter (fun c => same_year (year c) y) cs.

Definition select_ranking (cs : list county_record) (c : county_record)
  : ranking_row :=
  {| rk_state_code := state_code c;
     rk_county_name := county_name c;
     rk_gdp_billions := gdp_billions c;
     rk_year := year c;
     rank_in_state :=
       rank (map gdp_billions (state_partition (state_code c) (year c) cs))
            (gdp_billions c);
     rank_national :=
       rank (map gdp_billions (year_partition (year c) cs)) (gdp_billions c) |}.

Definition county_rankings_by_year (cs : list county_record) : list ranking_row :=
  map (select_ranking cs) cs.

(** An ordered partition: every value may come before those after it. *)
Fixpoint ordered_desc (l : list (option Q)) : Prop :=
  match l with
  | [] => True
  | x :: t => (forall y, In y t -> desc x y = true) /\ ordered_desc t
  end.

(** The number of values of a partition strictly above [v]. *)
Definition count_greater (partition : list (option Q)) (v : option Q) : nat :=
  List.length (filter (fun x => greater x v) partition).

End Views.

(** ** Remote Data Fetcher: [fetch_county_gdp] *)

Module Fetcher.

(** A decoded JSON value; an object lists its members in order, and a
    later member of the same name wins, as in the dict Python builds. *)
#[local] Unset Elimination Schemes.
Inductive json :=
| JNull
| JBool (b : bool)
| JNum (q : Q)
| JStr (s : string)
| JArr (items : list json)
| JObj (members : list (string * json)).
#[local] Set Elimination Schemes.

(** What [requests.get], [raise_for_status] and [response.json()] lead to:
    a [RequestException] of one of the three, or the decoded body. *)
Inductive response :=
| ConnectionError          (* [requests.get] raises *)
| HTTPError (status : Z)   (* [raise_for_status] raises *)
| JSONDecodeError          (* [response.json()] raises *)
| Body (data : json).

Fixpoint lookup (k : string) (members : list (string * json)) : option json :=
  match members with
  | [] => None
  | (k', v) :: t =>
      match lookup k t with
      | Some v' => Some v'
      | None => if String.eqb k k' then Some v else None
      end
  end.

Definition is_str (k : string) (j : json) : bool :=
  match j with
  | JStr s => String.eqb s k
  | _ => false
  end.

(** [k in j]: a key of a dict, an item of a list, a part of a text;
    [TypeError] on anything else. *)
Definition py_in (k : string) (j : json) : py_result bool :=
  match j with
  | JObj m => Returns (match lookup k m with Some _ => true | None => false end)
  | JArr l => Returns (existsb (is_str k) l)
  | JStr s => Returns (match String.index 0 k s with Some _ => true | None => false end)
  | _ => Raises "TypeError"
  end.

(** [j[k]] with a text [k]: defined on a dict that has the key. *)
Definition py_getitem (j : json) (k : string) : py_result json :=
  match j with
  | JObj m => match lookup k m with
              | Some v => Returns v
              | None => Raises "KeyError"
              end
  | _ => Raises "TypeError"
  end.

(** The frame [pd.DataFrame(results["Data"])], kept as the value it is
    built from: a JSON array gives one row per item. *)
Inductive frame := DataFrame (data : json).


(** Lines 27-35, on the decoded body. *)
Definition read_envelope (data : json) : py_result (option frame) :=
  match py_in "BEAAPI" data with
  | Raises e => Raises e
  | Returns false => Returns None
  | Returns true =>
      match py_getitem data "BEAAPI" with
      | Raises e => Raises e
      | Returns beaapi =>
          match py_in "Results" beaapi with
          | Raises e => Raises e
          | Returns false => Returns None
          | Returns true =>
              match py_getitem beaapi "Results" with
              | Raises e => Raises e
              | Returns results =>
                  match py_in "Data" results with
                  | Raises e => Raises e
                  | Returns false => Returns None
                  | Returns true =>
                      match py_getitem results "Data" with
                      | Raises e => Raises e
                      | Returns d => Returns (Some (DataFrame d))
                      end
                  end
              end
          end
      end
  end.

(** [fetch_county_gdp]: the handler of line 37 turns a [RequestException]
    into [None]; other exceptions pass. *)
Definition fetch_county_gdp (r : response) : py_result (option frame) :=
  match r with
  | ConnectionError => Returns None
  | HTTPError _ => Returns None
  | JSONDecodeError => Returns None
  | Body data => read_envelope data
  end.






End Fetcher.

(** ** The pipeline: [main] *)

Module Pipeline.
Import Normalizer Store.

(** [range(2004, 2023)] *)
Definition years : list Z := map (fun i => 2004 + Z.of_nat i) (seq 0 19).

Inductive event :=
| Fetch (y : Z)
| Sleep
| CreateDatabase (all_data : list county_record)
| Report.

Record run_state := mk_run {
  frames : list (list county_record);
  trace : list event
}.

(** The body of the loop (lines 166-173) for one year; [fetch y] is what
    [fetch_county_gdp(API_KEY, y)] returns, [None] or a raw frame. *)
Definition one_year (fetch : Z -> option (list raw_row)) (st : run_state) (y : Z)
  : py_result run_state :=
  let logged := (trace st ++ [Fetch y; Sleep])%list in
  match fetch y with
  | None => Returns {| frames := frames st; trace := logged |}
  | Some raw_data =>
      match process_bea_data (Some raw_data) with
      | Raises e => Raises e
      | Returns None => Returns {| frames := frames st; trace := logged |}
      | Returns (Some processed) =>
          Returns {| frames := (frames st ++ [processed])%list; trace := logged |}
      end
  end.

Fixpoint loop (fetch : Z -> option (list raw_row)) (ys : list Z) (st : run_state)
  : py_result run_state :=
  match ys with
  | [] => Returns st
  | y :: rest =>
      match one_year fetch st y with
      | Raises e => Raises e
      | Returns st' => loop fetch rest st'
      end
  end.

(** The result of a run: the events in order and the file at the end. *)
Record outcome := mk_outcome {
  events : list event;
  file : database
}.

(** [main()], given the file as it was.  When the loop raises, the run
    ends there and the file is as it was. *)
Definition main (fetch : Z -> option (list raw_row)) (db : database)
  : py_result outcome :=
  match loop fetch years {| frames := []; trace := [] |} with
  | Raises e => Raises e
  | Returns st =>
      match frames st with
      | [] => Returns {| events := trace st; file := db |}
      | fs =>
          let combined := List.concat fs in
          Returns {| events := (trace st ++ [CreateDatabase combined; Report])%list;
                     file := create_database combined db |}
      end
  end.

Definition is_create (e : event) : bool :=
  match e with
  | CreateDatabase _ => true
  | _ => false
  end.

End Pipeline.

(** ** Sample inputs *)

Definition autauga_row : Normalizer.raw_row :=
  Normalizer.mk_raw "01001" "Autauga, AL" "1,234.5" "2020".

Definition sample_batch : list Normalizer.raw_row :=
  [autauga_row;
   Normalizer.mk_raw "01003" "Baldwin, AL" "(D)" "2020";
   Normalizer.mk_raw "00000" "United States" "5,000" ""].



Definition county (fips name st : string) (gdp : Q) (y : Z) : Normalizer.county_record :=
  Normalizer.mk_county fips (Some name) (Some st) (Some gdp) (Some (inject_Z y)).

Definition old_data : list Normalizer.county_record :=
  [county "01001" "Autauga" "AL" (1 # 1) 2020].

Definition new_data : list Normalizer.county_record :=
  [county "01001" "Autauga" "AL" (2 # 1) 2020;
   county "01003" "Baldwin" "AL" (3 # 1) 2020].

(** Two rows with the same code and year, as a repeated item of the API's
    array gives them. *)
Definition repeated_data : list Normalizer.county_record :=
  [county "01001" "Autauga" "AL" (1 # 1) 2020;
   county "01001" "Autauga" "AL" (2 # 1) 2020].

(** Two counties of one state and year, the second with a GDP that was no
    number. *)
Definition suppressed_data : list Normalizer.county_record :=
  [county "01001" "Autauga" "AL" (2469 # 2000) 2020;
   Normalizer.mk_county "01003" (Some "Baldwin") (Some "AL") None (Some (inject_Z 2020))].


(** A county and the national line, whose label has no state code. *)
Definition unlabelled_data : list Normalizer.county_record :=
  [county "01001" "Autauga" "AL" (2469 # 2000) 2020;
   Normalizer.mk_county "00000" None None (Some (5 # 1)%Q) (Some (inject_Z 2020))].

(** One county over two years, and a second county tied with it. *)
Definition two_years : list Normalizer.county_record :=
  [county "01001" "Autauga" "AL" (2 # 1) 2019;
   county "01001" "Autauga" "AL" (3 # 1) 2020;
   county "01003" "Baldwin" "AL" (3 # 1) 2020;
   county "01005" "Barbour" "AL" (1 # 1) 2020].

Definition national_line : Normalizer.county_record :=
  Normalizer.mk_county "00000" None None (Some (5 # 1)%Q) (Some (inject_Z 2020)).


Definition barbour_ranking_2020 : Views.ranking_row :=
  Views.mk_ranking (Some "AL") (Some "Barbour") (Some (1 # 1)%Q)
    (Some (inject_Z 2020)) 3 3.

(** The file an earlier run over [old_data] left, and a run over [new_data]
    on that file whose INSERT into counties raises. *)
Definition prior_db : Store.database :=
  Store.create_database old_data Store.empty_db.

Definition interrupted_run : Store.database * option Store.step :=
  Store.create_database_with (Store.fails_at Store.InsertCounties) new_data prior_db.

Definition repeated_db : Store.database :=
  Store.create_database repeated_data Store.empty_db.

(** ** Labels *)

Module Label.

(** The label of a county: its name, a comma, a space, the two characters
    of the state code. *)
Definition code2 (a b : ascii) : string := String a (String b EmptyString).

Definition make (name : string) (a b : ascii) : string :=
  name ++ ", " ++ code2 a b.

Definition one_line (s : string) : bool :=
  forallb (fun c => negb (Text.is_newline c)) (Text.of_string s).

End Label.

(** ** Totals over the groups *)

Module Totals.
Import Normalizer Aggregator.

(** A record that enters a group: it has a state code and a year. *)
Definition keyed (r : county_record) : bool :=
  match key_of r with
  | Some _ => true
  | None => false
  end.

Definition gdp_missing (r : county_record) : bool :=
  match gdp_billions r with
  | Some _ => false
  | None => true
  end.

(** The sum of the column [total_gdp] and the sum of the column
    [num_counties] of the summaries. *)
Definition grand_total (gs : list state_summary) : Q :=
  Qsum (map total_gdp gs).

Definition grand_count (gs : list state_summary) : nat :=
  list_sum (map num_counties gs).

(** Every group has a row: the one that opened it. *)
Definition populated (rows : list county_record) (gs : list state_summary) : Prop :=
  forall g, In g gs -> exists r, In r rows /\ in_group (summary_key g) r = true.

(** What a cell adds to a sum and to a count. *)
Definition cell_value (v : option Q) : Q :=
  match v with
  | Some q => q
  | None => 0%Q
  end.

Definition cell_count (v : option Q) : nat :=
  match v with
  | Some _ => 1%nat
  | None => 0%nat
  end.

End Totals.

(** ** The view [state_growth] (lines 119-130) *)

Module StateGrowth.
Import Aggregator Views.

Record state_growth_row := mk_state_growth {
  sg_state_code : string;
  sg_year : Q;
  sg_total_gdp : Q;
  sg_annual_growth_rate : option Q
}.

(** The ON condition: the same state, and the year of [s1] is the year of
    [s2] plus one. *)
Definition previous_summary (s1 s2 : state_summary) : bool :=
  (String.eqb (sum_state_code s1) (sum_state_code s2)
   && Qeq_bool (sum_year s1) (sum_year s2 + 1))%bool.

(** [states s1 LEFT JOIN states s2 ON ...] *)
Definition left_join (ss : list state_summary)
  : list (state_summary * option state_summary) :=
  flat_map (fun s1 =>
              match filter (previous_summary s1) ss with
              | [] => [(s1, None)]
              | ms => map (fun s2 => (s1, Some s2)) ms
              end) ss.

Definition select_state_growth (p : state_summary * option state_summary)
  : state_growth_row :=
  let '(s1, s2) := p in
  {| sg_state_code := sum_state_code s1;
     sg_year := sum_year s1;
     sg_total_gdp := total_gdp s1;
     sg_annual_growth_rate :=
       sql_minus_one (sql_div (Some (total_gdp s1)) (option_map total_gdp s2)) |}.

Definition state_growth (ss : list state_summary) : list state_growth_row :=
  map select_state_growth (left_join ss).

End StateGrowth.

(** ** The indexes a DROP of counties leaves *)

Module Overwrite.

Definition off_counties (n : string) : bool :=
  negb (existsb (String.eqb n) Store.counties_indexes).

End Overwrite.

(** ** One row per code and year *)

Module Keys.
Import Normalizer Views.

(** No two rows of the table have the same code and year. *)
Fixpoint keys_distinct (cs : list county_record) : Prop :=
  match cs with
  | [] => True
  | c :: t =>
      (forall c', In c' t -> same_key c c' = false) /\ keys_distinct t
  end.

(** The view row of a stored row [c]. *)
Definition shows (v : growth_row) (c : county_record) : Prop :=
  gr_fips_code v = fips_code c
  /\ gr_county_name v = county_name c
  /\ gr_state_code v = state_code c
  /\ gr_year v = year c
  /\ gr_gdp_billions v = gdp_billions c.

End Keys.

(** ** More sample inputs *)

(** A county whose GDP of the year before is zero, and its view row. *)
Definition idle_years : list Normalizer.county_record :=
  [county "01001" "Autauga" "AL" (0 # 1) 2019;
   county "01001" "Autauga" "AL" (3 # 1) 2020].

Definition idle_growth_2020 : Views.growth_row :=
  Views.mk_growth "01001" (Some "Autauga") (Some "AL")
    (Some (inject_Z 2020)) (Some (3 # 1)%Q) None.

(** ** What a run loads *)

Module Run.
Import Normalizer Pipeline.






Definition fetch_events (ys : list Z) : list event :=
  flat_map (fun y => [Fetch y; Sleep]) ys.


End Run.

(** ** Decimal spellings *)

Module Spelling.


End Spelling.

(** ** Verification Reporter: the coverage query of [main] (lines 191-196) *)

Module Reporter.
Import Normalizer Views.

Record coverage_row := mk_coverage {
  cv_year : option Q;
  cv_num_states : nat;
  cv_num_counties : nat
}.

(** GROUP BY year: one group per year, the NULL years together; the years
    in the order they are first met. *)
Definition add_year (seen : list (option Q)) (c : county_record)
  : list (option Q) :=
  if existsb (same_year (year c)) seen then seen else (seen ++ [year c])%list.

Definition years_seen (cs : list county_record) : list (option Q) :=
  fold_left add_year cs [].

Fixpoint present_codes (col : list (option string)) : list string :=
  match col with
  | [] => []
  | Some s :: t => s :: present_codes t
  | None :: t => present_codes t
  end.

(** COUNT(DISTINCT state_code) leaves the NULLs out; COUNT( * ) counts the
    rows. *)
Definition coverage_of (cs : list county_record) (y : option Q) : coverage_row :=
  {| cv_year := y;
     cv_num_states :=
       List.length (nodup string_dec
                          (present_codes (map state_code (year_partition y cs))));
     cv_num_counties := List.length (year_partition y cs) |}.

(** ORDER BY year: the NULL year first, then the years upwards. *)
Definition year_leb (a b : coverage_row) : bool :=
  match sql_compare (cv_year a) (cv_year b) with
  | Gt => false
  | _ => true
  end.

Definition coverage (cs : list county_record) : list coverage_row :=
  isort year_leb (map (coverage_of cs) (years_seen cs)).

(** No two years of the list are the same. *)
Fixpoint years_apart (ys : list (option Q)) : Prop :=
  match ys with
  | [] => True
  | y :: t => (forall y', In y' t -> same_year y y' = false) /\ years_apart t
  end.

End Reporter.

(** ** The summaries of one year *)

Module Yearly.
Import Aggregator.

Definition of_year (y : Q) (g : state_summary) : bool := Qeq_bool (sum_year g) y.

End Yearly.

(** ** The single-year script, whole *)

Module Script.
Import Normalizer SingleYear.

(** The table of lines 40-54. *)
Definition state_names : list (string * string) :=
  [("AL", "Alabama"); ("AK", "Alaska"); ("AZ", "Arizona"); ("AR", "Arkansas");
   ("CA", "California"); ("CO", "Colorado"); ("CT", "Connecticut");
   ("DE", "Delaware"); ("FL", "Florida"); ("GA", "Georgia"); ("HI", "Hawaii");
   ("ID", "Idaho"); ("IL", "Illinois"); ("IN", "Indiana"); ("IA", "Iowa");
   ("KS", "Kansas"); ("KY", "Kentucky"); ("LA", "Louisiana"); ("ME", "Maine");
   ("MD", "Maryland"); ("MA", "Massachusetts"); ("MI", "Michigan");
   ("MN", "Minnesota"); ("MS", "Mississippi"); ("MO", "Missouri");
   ("MT", "Montana"); ("NE", "Nebraska"); ("NV", "Nevada");
   ("NH", "New Hampshire"); ("NJ", "New Jersey"); ("NM", "New Mexico");
   ("NY", "New York"); ("NC", "North Carolina"); ("ND", "North Dakota");
   ("OH", "Ohio"); ("OK", "Oklahoma"); ("OR", "Oregon"); ("PA", "Pennsylvania");
   ("RI", "Rhode Island"); ("SC", "South Carolina"); ("SD", "South Dakota");
   ("TN", "Tennessee"); ("TX", "Texas"); ("UT", "Utah"); ("VT", "Vermont");
   ("VA", "Virginia"); ("WA", "Washington"); ("WV", "West Virginia");
   ("WI", "Wisconsin"); ("WY", "Wyoming"); ("DC", "District of Columbia")].

Fixpoint assoc (k : string) (table : list (string * string)) : option string :=
  match table with
  | [] => None
  | (k', v) :: t => if String.eqb k k' then Some v else assoc k t
  end.

(** [df['State'].map(state_names)] on one cell: a missing code and a code
    the table does not have give a missing name. *)
Definition state_name (code : option string) : option string :=
  match code with
  | Some c => assoc c state_names
  | None => None
  end.

(** A row of the frame after line 57. *)
Record named_row := mk_named {
  cleaned : cleaned_row;
  StateName : option string
}.

Definition name_row (r : raw_row) : named_row :=
  {| cleaned := clean_row r;
     StateName := state_name (State (clean_row r)) |}.

(** The two keys of [sort_values] (line 60).  Names go upwards and GDP
    downwards; on both keys the missing values come last. *)
Definition name_compare (a b : option string) : comparison :=
  match a, b with
  | Some x, Some y => String.compare x y
  | Some _, None => Lt
  | None, Some _ => Gt
  | None, None => Eq
  end.

Definition gdp_compare (a b : option Q) : comparison :=
  match a, b with
  | Some x, Some y => Qcompare y x
  | Some _, None => Lt
  | None, Some _ => Gt
  | None, None => Eq
  end.

(** [x] may stay before [y]. *)
Definition in_order (x y : named_row) : bool :=
  match name_compare (StateName x) (StateName y) with
  | Lt => true
  | Gt => false
  | Eq => match gdp_compare (GDP (cleaned x)) (GDP (cleaned y)) with
          | Gt => false
          | _ => true
          end
  end.

(** The sort keeps the rows of equal keys in the order they had. *)
Definition sort_values (rows : list named_row) : list named_row :=
  isort in_order rows.

(** A row of the frame the function returns (lines 63-68). *)
Record out_row := mk_out {
  o_StateName : option string;
  o_County : string;
  o_GDP_Billions : option Q;
  o_GeoFips : string
}.

(** [round3] stands for [round(3)] of line 68, which works on binary
    floating point and is not modelled. *)
Definition select (round3 : Q -> Q) (x : named_row) : out_row :=
  {| o_StateName := StateName x;
     o_County := County (cleaned x);
     o_GDP_Billions := option_map round3 (GDP_Billions (cleaned x));
     o_GeoFips := GeoFips (raw (cleaned x)) |}.

(** What lines 24-29 find: a [RequestException], a body without one of the
    three members, or the rows of the "Data" array. *)
Inductive reply :=
| RequestFailed
| NoEnvelope
| Rows (rows : list raw_row).

(** [get_county_gdp_by_state].  A frame built from an empty array has no
    column, so the subscript of line 34 raises [KeyError]. *)
Definition get_county_gdp_by_state (round3 : Q -> Q) (r : reply)
  : py_result (list out_row) :=
  match r with
  | RequestFailed => Returns []
  | NoEnvelope => Returns []
  | Rows [] => Raises "KeyError"
  | Rows rows => Returns (map (select round3) (sort_values (map name_row rows)))
  end.

(** ** [print_gdp_by_state] *)

Inductive printed :=
| TotalLine (total_us_gdp : Q)                        (* line 87 *)
| Title                                               (* lines 88-89 *)
| StateHeader (name : option string) (state_total : Q) (* lines 101-105 *)
| CountyLine (state_rank : nat) (row : out_row).      (* line 108 *)

(** [current_state != row['StateName']]: a missing name differs from
    everything, itself included. *)
Definition state_changed (current name : option string) : bool :=
  match current, name with
  | Some a, Some b => negb (String.eqb a b)
  | _, _ => true
  end.

Definition named (name : option string) (row : out_row) : bool :=
  match o_StateName row, name with
  | Some a, Some b => String.eqb a b
  | _, _ => false
  end.

Definition state_total (df : list out_row) (name : option string) : Q :=
  Aggregator.Qsum
    (Aggregator.present (map o_GDP_Billions (filter (named name) df))).

Fixpoint print_rows (df : list out_row) (current : option string)
  (state_rank : nat) (rows : list out_row) : list printed :=
  match rows with
  | [] => []
  | row :: rest =>
      if state_changed current (o_StateName row) then
        StateHeader (o_StateName row) (state_total df (o_StateName row))
        :: CountyLine 1 row
        :: print_rows df (o_StateName row) 2 rest
      else
        CountyLine state_rank row
        :: print_rows df current (S state_rank) rest
  end.

Definition print_gdp_by_state (df : list out_row) : list printed :=
  TotalLine (Aggregator.Qsum (Aggregator.present (map o_GDP_Billions df)))
  :: Title
  :: print_rows df None 0 df.

(** The lines 111-121: print and save when the frame has rows. *)
Inductive action :=
| Print (lines : list printed)
| SaveCsv (rows : list out_row).

Definition script (round3 : Q -> Q) (r : reply) : py_result (list action) :=
  match get_county_gdp_by_state round3 r with
  | Raises e => Raises e
  | Returns [] => Returns []
  | Returns df => Returns [Print (print_gdp_by_state df); SaveCsv df]
  end.

(** The county lines of a print-out, and the rank the row after [before]
    has when the rows of a state are counted from one. *)
Fixpoint county_lines (lines : list printed) : list (nat * out_row) :=
  match lines with
  | [] => []
  | CountyLine k row :: t => (k, row) :: county_lines t
  | _ :: t => county_lines t
  end.

Definition place (before : list out_row) (row : out_row) : nat :=
  S (List.length (filter (named (o_StateName row)) before)).

Fixpoint placed (before rows : list out_row) : list (nat * out_row) :=
  match rows with
  | [] => []
  | row :: rest => (place before row, row) :: placed (before ++ [row]) rest
  end.

(** The rows of a state are together: once another row has come, the
    state does not come back. *)
Definition together (df : list out_row) : Prop :=
  forall l1 a l2 s,
    df = (l1 ++ a :: l2)%list ->
    o_StateName a <> Some s ->
    (exists x, In x l1 /\ o_StateName x = Some s) ->
    forall z, In z l2 -> o_StateName z <> Some s.

End Script.

(** ** Order of a list *)

Section Ordered.
Context {A : Type} (before : A -> A -> bool).

(** Every element may stay before all those after it. *)
Fixpoint ordered_by (l : list A) : Prop :=
  match l with
  | [] => True
  | x :: t => (forall y, In y t -> before x y = true) /\ ordered_by t
  end.

End Ordered.
Example parse_plain : Numeric.to_numeric_coerce "1234.5" = Some (2469 # 2)%Q.
Proof. reflexivity. Qed.

Example parse_year : Numeric.to_numeric_coerce "2020" = Some (2020 # 1)%Q.
Proof. reflexivity. Qed.

Example parse_exponent : Numeric.to_numeric_coerce " -1.5e2 " = Some (-150 # 1)%Q.
Proof. reflexivity. Qed.

Example parse_marker : Numeric.to_numeric_coerce "(NA)" = None.
Proof. reflexivity. Qed.

Example parse_grouped : Numeric.to_numeric_coerce "1,234.5" = None.
Proof. reflexivity. Qed.

Example extract_autauga :
  Regex.extract_name_state "Autauga, AL" = Some ("Autauga", "AL").
Proof. reflexivity. Qed.

Example extract_two_commas :
  Regex.extract_name_state "Anchorage, Municipality of, AK"
  = Some ("Anchorage, Municipality of", "AK").
Proof. reflexivity. Qed.

Example extract_no_code : Regex.extract_name_state "United States" = None.
Proof. reflexivity. Qed.

Example extract_long_code : Regex.extract_name_state "Somewhere, USA" = None.
Proof. reflexivity. Qed.

Example county_suffix_cut :
  Regex.remove_county_suffix "Autauga County, AL" = "Autauga".
Proof. reflexivity. Qed.

Example autauga_historical :
  Normalizer.process_bea_data (Some [autauga_row])
  = Returns (Some [Normalizer.mk_county "01001" (Some "Autauga") (Some "AL")
                     (Some (2469 # 2000)%Q) (Some (2020 # 1)%Q)]).
Proof. reflexivity. Qed.

(** * Record Normalizer *)

Section NormalizerFacts.
Import Normalizer.




End NormalizerFacts.




Example sample_batch_records :
  Normalizer.process_bea_data (Some sample_batch)
  = Returns (Some [Normalizer.mk_county "01001" (Some "Autauga") (Some "AL")
                     (Some (2469 # 2000)%Q) (Some (2020 # 1)%Q);
                   Normalizer.mk_county "01003" (Some "Baldwin") (Some "AL")
                     None (Some (2020 # 1)%Q);
                   Normalizer.mk_county "00000" None None
                     (Some (5 # 1)%Q) None]).
Proof. reflexivity. Qed.

(** * The single-year script *)

(** C5, as stated, fails: the county column of the single-year script is
    not "Autauga" for this row. *)
Lemma single_year_autauga_county_not_stripped :
  SingleYear.County (SingleYear.clean_row autauga_row) <> "Autauga".
Proof. vm_compute. discriminate. Qed.

(** C5, amended: for the row of the claim the single-year script keeps the
    raw columns (the code "01001", the time period as the text "2020"),
    sets State to "AL", GDP to 1234.5 and GDP_Billions to 1234.5 divided by
    1,000,000, that is 0.0012345; County is the label less a final
    " County, XX", and this label has none, so it stays "Autauga, AL". *)
Theorem single_year_autauga :
  SingleYear.clean_row autauga_row
  = {| SingleYear.raw := autauga_row;
       SingleYear.GDP := Some (2469 # 2)%Q;
       SingleYear.State := Some "AL";
       SingleYear.County := "Autauga, AL";
       SingleYear.GDP_Billions := Some (2469 # 2000000)%Q |}
  /\ Normalizer.GeoFips (SingleYear.raw (SingleYear.clean_row autauga_row)) = "01001"
  /\ Normalizer.TimePeriod (SingleYear.raw (SingleYear.clean_row autauga_row)) = "2020"
  /\ ((2469 # 2000000) == (12345 # 10000000))%Q.
Proof. repeat split. Qed.

(** * Remote Data Fetcher *)

Section FetcherFacts.
Import Fetcher.


End FetcherFacts.


(** A body that is no object at all is none of the cases the handler
    covers: the test of line 27 raises. *)
Example fetch_number_body_raises :
  Fetcher.fetch_county_gdp (Fetcher.Body (Fetcher.JNum (5 # 1)))
  = Raises "TypeError".
Proof. reflexivity. Qed.



(** * The pipeline *)

Section PipelineFacts.
Import Pipeline.

Lemma loop_no_data :
  forall fetch ys st,
    (forall y, In y ys -> fetch y = None) ->
    loop fetch ys st
    = Returns {| frames := frames st;
                 trace := (trace st ++ flat_map (fun y => [Fetch y; Sleep]) ys)%list |}.
Proof.
  intros fetch ys. induction ys as [|y ys IH]; intros st H; simpl.
  - rewrite app_nil_r. now destruct st.
  - unfold one_year. rewrite (H y (or_introl eq_refl)).
    rewrite IH by (intros; apply H; now right). simpl.
    now rewrite <- app_assoc.
Qed.

Lemma fetch_sleep_not_create :
  forall ys, existsb is_create (flat_map (fun y => [Fetch y; Sleep]) ys) = false.
Proof. induction ys; simpl; auto. Qed.

End PipelineFacts.

(** C9: when the fetch of every year of the range returns the "no data"
    signal, [main] returns, [create_database] is not among its events and
    the file is the one it found. *)
Theorem main_without_data_leaves_store :
  forall (fetch : Z -> option (list Normalizer.raw_row)) (db : Store.database),
    (forall y, In y Pipeline.years -> fetch y = None) ->
    exists out,
      Pipeline.main fetch db = Returns out
      /\ Pipeline.file out = db
      /\ existsb Pipeline.is_create (Pipeline.events out) = false.
Proof.
  intros fetch db H. unfold Pipeline.main.
  rewrite (loop_no_data fetch Pipeline.years _ H). simpl Pipeline.frames.
  eexists. split; [reflexivity|]. split; [reflexivity|].
  exact (fetch_sleep_not_create Pipeline.years).
Qed.

Lemma main_without_data_leaves_store_witness :
  exists out,
    Pipeline.main (fun _ => None) Store.empty_db = Returns out
    /\ Pipeline.file out = Store.empty_db
    /\ existsb Pipeline.is_create (Pipeline.events out) = false.
Proof.
  apply (main_without_data_leaves_store (fun _ => None) Store.empty_db).
  intros y _. reflexivity.
Defined.

(** A year whose frame is empty is skipped as well: the Normalizer, not the
    fetch, turns it into "no data". *)
Example main_with_empty_frames :
  exists out,
    Pipeline.main (fun _ => Some []) Store.empty_db = Returns out
    /\ Pipeline.file out = Store.empty_db
    /\ existsb Pipeline.is_create (Pipeline.events out) = false.
Proof. eexists. repeat split. Qed.

(** * The store *)

Section StoreFacts.
Import Store.

(** Whatever the file held, after a run without failure both tables are
    the ones [to_sql] made: plain columns, no key. *)
Lemma create_database_schemas :
  forall all_data db,
    option_map tbl_schema (counties (create_database all_data db))
    = Some (frame_schema counties_columns)
    /\ option_map tbl_schema (states (create_database all_data db))
       = Some (frame_schema ["state_code"; "year"; "total_gdp"; "num_counties"]).
Proof.
  intros all_data [s c v i]. unfold create_database, create_database_with.
  destruct s, c; simpl; split; reflexivity.
Qed.

Lemma create_database_rows :
  forall all_data db,
    rows_of (states (create_database all_data db)) = Aggregator.state_summaries all_data
    /\ rows_of (counties (create_database all_data db)) = all_data.
Proof.
  intros all_data [s c v i]. unfold create_database, create_database_with.
  destruct s, c; simpl; split; reflexivity.
Qed.

End StoreFacts.

(** C4 at a failing input: after [create_database] on two rows that share
    code and year, over a new file, the counties table has no primary key
    and no foreign key, the states table has no primary key, and both rows
    are stored. *)
Theorem create_database_replace_drops_keys :
  Store.keys_of (Store.counties repeated_db) = []
  /\ option_map (fun t => Store.foreign_key (Store.tbl_schema t))
                (Store.counties repeated_db)
     = Some None
  /\ Store.keys_of (Store.states repeated_db) = []
  /\ Store.rows_of (Store.counties repeated_db) = repeated_data
  /\ map Normalizer.fips_code repeated_data = ["01001"; "01001"]
  /\ map Normalizer.year repeated_data = [Some (2020 # 1)%Q; Some (2020 # 1)%Q].
Proof. repeat split. Qed.

(** The same on every input and every file found. *)
Lemma create_database_never_keeps_keys :
  forall all_data db,
    Store.keys_of (Store.counties (Store.create_database all_data db)) = []
    /\ Store.keys_of (Store.states (Store.create_database all_data db)) = [].
Proof.
  intros all_data db.
  destruct (create_database_schemas all_data db) as [Hc Hs].
  unfold Store.keys_of.
  destruct (Store.counties (Store.create_database all_data db)) as [tc|];
    destruct (Store.states (Store.create_database all_data db)) as [ts|];
    simpl in *; try discriminate.
  inversion Hc as [Hc']. inversion Hs as [Hs']. rewrite Hc', Hs'. split; reflexivity.
Qed.

(** C2, as stated, fails: over the file of an earlier run, a run whose
    bulk load of counties raises leaves the new states rows beside a
    counties table without rows: the old counties rows are gone and the new
    ones are not there. *)
Lemma create_database_partial_overwrite :
  snd interrupted_run = Some Store.InsertCounties
  /\ Store.rows_of (Store.counties prior_db) = old_data
  /\ Store.rows_of (Store.states (fst interrupted_run))
     = Aggregator.state_summaries new_data
  /\ Store.rows_of (Store.counties (fst interrupted_run)) = []
  /\ Store.rows_of (Store.states (fst interrupted_run))
     <> Store.rows_of (Store.states prior_db)
  /\ Store.rows_of (Store.counties (fst interrupted_run))
     <> Store.rows_of (Store.counties prior_db)
  /\ Store.rows_of (Store.counties (fst interrupted_run)) <> new_data.
Proof.
  repeat split; vm_compute; discriminate.
Qed.

(** C2, amended: [create_database] is not atomic, every statement is in the
    file once it is done.  A run without failure leaves the full new data
    set, and so does a failure after both loads (a view, an index, the
    commit).  The rows of both tables are as they were only when the
    failure comes before the first DROP.  A failure inside the states load
    leaves the states table without rows and the counties rows as they
    were; a failure of the DROP of counties leaves the new states rows with
    the old counties rows; a failure later in the counties load leaves the
    new states rows and no counties rows. *)
Theorem create_database_failure_points :
  forall (fails : Store.step -> bool) (all_data : list Normalizer.county_record)
         (db : Store.database),
    let result := Store.create_database_with fails all_data db in
    let new_states := Aggregator.state_summaries all_data in
    match snd result with
    | None =>
        Store.rows_of (Store.states (fst result)) = new_states
        /\ Store.rows_of (Store.counties (fst result)) = all_data
    | Some Store.CreateStates | Some Store.CreateCounties
    | Some Store.Summaries | Some Store.DropStates =>
        Store.rows_of (Store.states (fst result)) = Store.rows_of (Store.states db)
        /\ Store.rows_of (Store.counties (fst result)) = Store.rows_of (Store.counties db)
    | Some Store.RecreateStates | Some Store.InsertStates =>
        Store.rows_of (Store.states (fst result)) = []
        /\ Store.rows_of (Store.counties (fst result)) = Store.rows_of (Store.counties db)
    | Some Store.DropCounties =>
        Store.rows_of (Store.states (fst result)) = new_states
        /\ Store.rows_of (Store.counties (fst result)) = Store.rows_of (Store.counties db)
    | Some Store.RecreateCounties | Some Store.InsertCounties =>
        Store.rows_of (Store.states (fst result)) = new_states
        /\ Store.rows_of (Store.counties (fst result)) = []
    | Some _ =>
        Store.rows_of (Store.states (fst result)) = new_states
        /\ Store.rows_of (Store.counties (fst result)) = all_data
    end.
Proof.
  intros fails all_data [s c v i].
  unfold Store.create_database_with, Store.program. cbn [Store.run].
  repeat match goal with
         | |- context [if fails ?st then _ else _] =>
             destruct (fails st); cbn [fst snd Store.run]
         end;
    destruct s, c; simpl; split; reflexivity.
Qed.

(** * Sorting keeps the elements *)

Section SortingFacts.
Context {A : Type} (before : A -> A -> bool).

Lemma in_insert_sorted :
  forall x y l, In y (insert_sorted before x l) <-> y = x \/ In y l.
Proof.
  intros x y l. induction l as [|z l IH]; simpl.
  - intuition.
  - destruct (before x z); simpl; [intuition | rewrite IH; intuition].
Qed.

Lemma in_isort : forall y l, In y (isort before l) <-> In y l.
Proof.
  intros y l. induction l as [|x l IH]; simpl.
  - reflexivity.
  - rewrite in_insert_sorted, IH. intuition.
Qed.

Lemma filter_insert_sorted_length :
  forall (p : A -> bool) x l,
    List.length (filter p (insert_sorted before x l))
    = List.length (filter p (x :: l)).
Proof.
  intros p x l. induction l as [|z l IH]; simpl.
  - reflexivity.
  - destruct (before x z); simpl; [reflexivity|].
    simpl in IH. destruct (p z), (p x); simpl in *; lia.
Qed.

Lemma filter_isort_length :
  forall (p : A -> bool) l,
    List.length (filter p (isort before l)) = List.length (filter p l).
Proof.
  intros p l. induction l as [|x l IH]; simpl.
  - reflexivity.
  - rewrite filter_insert_sorted_length. simpl.
    destruct (p x); simpl; now rewrite IH.
Qed.

End SortingFacts.

(** * Aggregator *)

Section AggregatorFacts.
Import Normalizer Aggregator.

Lemma key_eqb_refl : forall k, key_eqb k k = true.
Proof.
  intros [s y]. unfold key_eqb; simpl.
  now rewrite String.eqb_refl, Qeq_bool_refl.
Qed.

Lemma key_eqb_sym : forall k1 k2, key_eqb k1 k2 = key_eqb k2 k1.
Proof.
  intros [s1 y1] [s2 y2]. unfold key_eqb; simpl.
  now rewrite String.eqb_sym, Qeq_bool_comm.
Qed.

Lemma key_eqb_trans :
  forall k1 k2 k3, key_eqb k1 k2 = true -> key_eqb k2 k3 = true -> key_eqb k1 k3 = true.
Proof.
  intros [s1 y1] [s2 y2] [s3 y3]. unfold key_eqb; simpl.
  rewrite !andb_true_iff, !String.eqb_eq.
  intros [-> H12] [-> H23]. split; [reflexivity|].
  eapply Qeq_bool_trans; eauto.
Qed.

(** Keys that meet, meet the same keys. *)
Lemma key_eqb_congr :
  forall k1 k2 k, key_eqb k1 k2 = true -> key_eqb k1 k = key_eqb k2 k.
Proof.
  intros k1 k2 k H.
  destruct (key_eqb k2 k) eqn:H2.
  - eapply key_eqb_trans; eauto.
  - destruct (key_eqb k1 k) eqn:H1; [|reflexivity].
    rewrite <- H2. symmetry. eapply key_eqb_trans; [|exact H1].
    now rewrite key_eqb_sym.
Qed.

Lemma summary_key_observe :
  forall v g, summary_key (observe v g) = summary_key g.
Proof. intros [q|] g; reflexivity. Qed.

Lemma summary_key_empty : forall k, summary_key (empty_group k) = k.
Proof. intros [s y]; reflexivity. Qed.

Lemma present_app : forall l1 l2, present (l1 ++ l2) = (present l1 ++ present l2)%list.
Proof.
  induction l1 as [|[q|] l1 IH]; intros l2; simpl; [reflexivity| |]; now rewrite IH.
Qed.

Lemma vals_snoc :
  forall k rows r,
    vals k (rows ++ [r])
    = (vals k rows ++ (if in_group k r then present [gdp_billions r] else []))%list.
Proof.
  intros k rows r. unfold vals, members.
  rewrite filter_app, map_app, present_app. simpl.
  destruct (in_group k r); reflexivity.
Qed.

Lemma Qsum_snoc : forall l q, (Qsum (l ++ [q]) == Qsum l + q)%Q.
Proof.
  induction l as [|x l IH]; intros q; simpl.
  - ring.
  - rewrite IH. ring.
Qed.

Lemma add_cell_cases :
  forall k v gs,
    distinct gs ->
    forall g', In g' (add_cell k v gs) ->
      (In g' gs /\ key_eqb (summary_key g') k = false)
      \/ (exists g, In g gs /\ key_eqb (summary_key g) k = true /\ g' = observe v g)
      \/ ((forall g, In g gs -> key_eqb (summary_key g) k = false)
          /\ g' = observe v (empty_group k)).
Proof.
  intros k v gs. induction gs as [|g t IH]; intros Hd g' Hin; simpl in *.
  - destruct Hin as [<-|[]]. right; right. split; [intros ? []|reflexivity].
  - destruct Hd as [Hg Ht].
    destruct (key_eqb (summary_key g) k) eqn:Hk; simpl in Hin.
    + destruct Hin as [<-|Hin].
      * right; left. exists g. auto.
      * left. split; [now right|].
        rewrite key_eqb_sym, <- (key_eqb_congr _ _ (summary_key g') Hk).
        now apply Hg.
    + destruct Hin as [<-|Hin].
      * left. split; [now left|exact Hk].
      * destruct (IH Ht g' Hin) as [[H1 H2]|[[g0 [H1 [H2 H3]]]|[H1 H2]]].
        -- left. split; [now right|exact H2].
        -- right; left. exists g0. split; [now right|auto].
        -- right; right. split; [|exact H2].
           intros g0 [<-|H0]; [exact Hk|now apply H1].
Qed.

Lemma add_cell_covers :
  forall k v gs,
    exists g', In g' (add_cell k v gs) /\ key_eqb (summary_key g') k = true.
Proof.
  intros k v gs. induction gs as [|g t IH]; simpl.
  - eexists. split; [now left|].
    rewrite summary_key_observe, summary_key_empty. apply key_eqb_refl.
  - destruct (key_eqb (summary_key g) k) eqn:Hk.
    + eexists. split; [now left|]. now rewrite summary_key_observe.
    + destruct IH as [g' [Hin Hg']]. exists g'. split; [now right|exact Hg'].
Qed.

Lemma add_cell_keeps :
  forall k v gs g,
    In g gs ->
    exists g', In g' (add_cell k v gs) /\ summary_key g' = summary_key g.
Proof.
  intros k v gs. induction gs as [|g0 t IH]; intros g Hin; simpl in *.
  - destruct Hin.
  - destruct (key_eqb (summary_key g0) k) eqn:Hk.
    + destruct Hin as [<-|Hin].
      * eexists. split; [now left|]. apply summary_key_observe.
      * exists g. split; [now right|reflexivity].
    + destruct Hin as [<-|Hin].
      * exists g0. split; [now left|reflexivity].
      * destruct (IH g Hin) as [g' [H1 H2]]. exists g'. split; [now right|exact H2].
Qed.

Lemma add_cell_distinct :
  forall k v gs, distinct gs -> distinct (add_cell k v gs).
Proof.
  intros k v gs. induction gs as [|g t IH]; intros Hd; simpl in *.
  - split; [intros ? []|exact I].
  - destruct Hd as [Hg Ht].
    destruct (key_eqb (summary_key g) k) eqn:Hk; simpl.
    + split; [|exact Ht]. intros g' Hin. rewrite summary_key_observe. now apply Hg.
    + split; [|now apply IH]. intros g' Hin.
      destruct (add_cell_cases k v t Ht g' Hin) as [[H1 _]|[[g0 [H1 [_ ->]]]|[_ ->]]].
      * now apply Hg.
      * rewrite summary_key_observe. now apply Hg.
      * now rewrite summary_key_observe, summary_key_empty.
Qed.

Lemma in_group_keyed :
  forall k r k', key_of r = Some k' -> in_group k r = key_eqb k k'.
Proof. intros k r k' H. unfold in_group. now rewrite H. Qed.

Lemma in_group_unkeyed : forall k r, key_of r = None -> in_group k r = false.
Proof. intros k r H. unfold in_group. now rewrite H. Qed.

Lemma exact_skip :
  forall rows r g, exact rows g -> in_group (summary_key g) r = false ->
                   exact (rows ++ [r]) g.
Proof.
  intros rows r g [Hs Hc] Hr. unfold exact.
  rewrite vals_snoc, Hr, app_nil_r. now split.
Qed.

Lemma exact_observe :
  forall rows r g, exact rows g -> in_group (summary_key g) r = true ->
                   exact (rows ++ [r]) (observe (gdp_billions r) g).
Proof.
  intros rows r g [Hs Hc] Hr. unfold exact.
  rewrite summary_key_observe, vals_snoc, Hr.
  destruct (gdp_billions r) as [q|]; simpl.
  - split.
    + rewrite Qsum_snoc, Hs. reflexivity.
    + rewrite length_app, Hc. simpl. lia.
  - rewrite app_nil_r. now split.
Qed.

Lemma vals_unseen :
  forall k rows gs,
    covered rows gs ->
    (forall g, In g gs -> key_eqb (summary_key g) k = false) ->
    vals k rows = [].
Proof.
  intros k rows gs Hcov Hno. unfold vals, members.
  replace (filter (in_group k) rows) with (@nil county_record); [reflexivity|].
  symmetry. induction rows as [|r rows IH]; simpl; [reflexivity|].
  assert (Hr : in_group k r = false).
  { destruct (key_of r) as [k'|] eqn:Hk'; [|now apply in_group_unkeyed].
    rewrite (in_group_keyed _ _ _ Hk').
    destruct (Hcov r k' (or_introl eq_refl) Hk') as [g [Hin Hg]].
    rewrite key_eqb_sym, <- (key_eqb_congr _ _ k Hg). now apply Hno. }
  rewrite Hr. apply IH. intros r0 k0 Hin. apply Hcov. now right.
Qed.

Lemma exact_new :
  forall rows r k gs,
    covered rows gs ->
    (forall g, In g gs -> key_eqb (summary_key g) k = false) ->
    key_of r = Some k ->
    exact (rows ++ [r]) (observe (gdp_billions r) (empty_group k)).
Proof.
  intros rows r k gs Hcov Hno Hk. unfold exact.
  rewrite summary_key_observe, summary_key_empty, vals_snoc.
  rewrite (vals_unseen k rows gs Hcov Hno).
  rewrite (in_group_keyed _ _ _ Hk), key_eqb_refl.
  destruct (gdp_billions r) as [q|]; simpl; split; try reflexivity. ring.
Qed.

Lemma grouped_step :
  forall rows gs r, grouped rows gs -> grouped (rows ++ [r]) (add_row gs r).
Proof.
  intros rows gs r (Hd & He & Hc). unfold add_row.
  destruct (key_of r) as [k|] eqn:Hk.
  - split; [now apply add_cell_distinct|]. split.
    + intros g' Hin.
      destruct (add_cell_cases k _ gs Hd g' Hin) as [[H1 H2]|[[g [H1 [H2 ->]]]|[H1 ->]]].
      * apply exact_skip; [now apply He|].
        now rewrite (in_group_keyed _ _ _ Hk).
      * apply exact_observe; [now apply He|].
        now rewrite (in_group_keyed _ _ _ Hk).
      * eapply exact_new; eauto.
    + intros r0 k0 Hin Hk0. apply in_app_or in Hin. destruct Hin as [Hin|[<-|[]]].
      * destruct (Hc r0 k0 Hin Hk0) as [g [Hg1 Hg2]].
        destruct (add_cell_keeps k (gdp_billions r) gs g Hg1) as [g' [H1 H2]].
        exists g'. split; [exact H1|now rewrite H2].
      * rewrite Hk in Hk0. inversion Hk0; subst. apply add_cell_covers.
  - split; [exact Hd|]. split.
    + intros g Hin. apply exact_skip; [now apply He|now apply in_group_unkeyed].
    + intros r0 k0 Hin Hk0. apply in_app_or in Hin. destruct Hin as [Hin|[<-|[]]].
      * now apply (Hc r0 k0).
      * congruence.
Qed.

Lemma group_rows_grouped : forall rows, grouped rows (group_rows rows).
Proof.
  intros rows. unfold group_rows. induction rows as [|r rows IH] using rev_ind.
  - simpl. split; [exact I|]. split; [intros ? []|intros ? ? []].
  - rewrite fold_left_app. simpl. now apply grouped_step.
Qed.

(** Rows without a state code leave the groups as they are. *)
Lemma fold_add_row_with_state :
  forall rows gs,
    fold_left add_row rows gs
    = fold_left add_row
        (filter has_state rows) gs.
Proof.
  induction rows as [|r rows IH]; intros gs; simpl; [reflexivity|].
  destruct (state_code r) as [st|] eqn:Hst.
  - replace (has_state r) with true by (unfold has_state; now rewrite Hst).
    simpl. apply IH.
  - replace (has_state r) with false by (unfold has_state; now rewrite Hst).
    replace (add_row gs r) with gs by (unfold add_row, key_of; now rewrite Hst).
    apply IH.
Qed.

Lemma distinct_insert :
  forall x l,
    distinct l ->
    (forall g, In g l -> key_eqb (summary_key x) (summary_key g) = false) ->
    distinct (insert_sorted key_leb x l).
Proof.
  intros x l. induction l as [|z l IH]; intros Hd Hx; simpl.
  - split; [intros ? []|exact I].
  - destruct Hd as [Hz Hl]. destruct (key_leb x z); simpl.
    + split; [exact Hx|]. split; assumption.
    + split.
      * intros g Hg. apply in_insert_sorted in Hg. destruct Hg as [->|Hg].
        -- rewrite key_eqb_sym. apply Hx. now left.
        -- now apply Hz.
      * apply IH; [exact Hl|]. intros g Hg. apply Hx. now right.
Qed.

Lemma distinct_isort : forall l, distinct l -> distinct (isort key_leb l).
Proof.
  induction l as [|x l IH]; intros Hd; simpl; [exact I|].
  destruct Hd as [Hx Hl]. apply distinct_insert; [now apply IH|].
  intros g Hg. apply Hx. now apply in_isort in Hg.
Qed.

End AggregatorFacts.

(** What the Aggregator computes, for every group it produces: [total_gdp]
    is the sum of the GDP values present in the rows of the group, and
    [num_counties] is the number of those values, which leaves out the rows
    of the group whose GDP is null. *)
Theorem state_summaries_sum_and_count :
  forall (rows : list Normalizer.county_record) (g : Aggregator.state_summary),
    In g (Aggregator.state_summaries rows) ->
    (Aggregator.total_gdp g
     == Aggregator.Qsum
          (Aggregator.present
             (map Normalizer.gdp_billions
                  (Aggregator.members (Aggregator.summary_key g) rows))))%Q
    /\ Aggregator.num_counties g
       = List.length
           (Aggregator.present
              (map Normalizer.gdp_billions
                   (Aggregator.members (Aggregator.summary_key g) rows))).
Proof.
  intros rows g Hin. unfold Aggregator.state_summaries in Hin.
  apply in_isort in Hin.
  destruct (group_rows_grouped rows) as (_ & He & _).
  exact (He g Hin).
Qed.

(** C1 at a failing input: Autauga and Baldwin, both of AL in 2020, the
    second with a GDP that was no number.  The group has two records, and
    the Aggregator gives it [num_counties] 1. *)
Theorem state_summaries_count_skips_null_gdp :
  Normalizer.process_bea_data
    (Some [autauga_row; Normalizer.mk_raw "01003" "Baldwin, AL" "(D)" "2020"])
  = Returns (Some suppressed_data)
  /\ Aggregator.state_summaries suppressed_data
     = [Aggregator.mk_summary "AL" (2020 # 1) (0 + (2469 # 2000)) 1]
  /\ List.length (Aggregator.members ("AL", (2020 # 1)%Q) suppressed_data) = 2%nat.
Proof. repeat split. Qed.

(** The summaries have one row per (state_code, year), and a row for every
    pair seen on a record that has both. *)
Lemma state_summaries_keys :
  forall rows : list Normalizer.county_record,
    Aggregator.distinct (Aggregator.state_summaries rows)
    /\ Aggregator.covered rows (Aggregator.state_summaries rows).
Proof.
  intros rows. destruct (group_rows_grouped rows) as (Hd & _ & Hc). split.
  - now apply distinct_isort.
  - intros r k Hr Hk. destruct (Hc r k Hr Hk) as [g [Hg Hgk]].
    exists g. split; [now apply in_isort|exact Hgk].
Qed.

(** C10: a record without a state code is a row of the counties table,
    is in the group of no states row (no states row carries its state
    code), and adds to no total and no count: the states rows are the
    summaries of the records that have a state code. *)
Theorem null_state_rows_stored_without_parent :
  forall (all_data : list Normalizer.county_record) (db : Store.database)
         (r : Normalizer.county_record),
    In r all_data ->
    Normalizer.state_code r = None ->
    In r (Store.rows_of (Store.counties (Store.create_database all_data db)))
    /\ (forall g,
          In g (Store.rows_of (Store.states (Store.create_database all_data db))) ->
          Aggregator.in_group (Aggregator.summary_key g) r = false
          /\ Some (Aggregator.sum_state_code g) <> Normalizer.state_code r)
    /\ Store.rows_of (Store.states (Store.create_database all_data db))
       = Aggregator.state_summaries (filter Aggregator.has_state all_data).
Proof.
  intros all_data db r Hin Hst.
  destruct (create_database_rows all_data db) as [Hs Hc].
  rewrite Hs, Hc. split; [exact Hin|]. split.
  - intros g _. split.
    + apply in_group_unkeyed. unfold Aggregator.key_of. now rewrite Hst.
    + rewrite Hst. discriminate.
  - unfold Aggregator.state_summaries, Aggregator.group_rows.
    now rewrite fold_add_row_with_state.
Qed.

Lemma null_state_rows_stored_without_parent_witness :
  In national_line
     (Store.rows_of (Store.counties
                       (Store.create_database unlabelled_data Store.empty_db)))
  /\ (forall g,
        In g (Store.rows_of (Store.states
                               (Store.create_database unlabelled_data Store.empty_db))) ->
        Aggregator.in_group (Aggregator.summary_key g) national_line = false
        /\ Some (Aggregator.sum_state_code g) <> Normalizer.state_code national_line)
  /\ Store.rows_of (Store.states
                      (Store.create_database unlabelled_data Store.empty_db))
     = Aggregator.state_summaries (filter Aggregator.has_state unlabelled_data).
Proof.
  apply (null_state_rows_stored_without_parent unlabelled_data Store.empty_db).
  - right; left; reflexivity.
  - reflexivity.
Defined.

(** * The growth view *)

Section GrowthFacts.
Import Normalizer Views.

Lemma left_join_spec :
  forall cs c1 oc2,
    In (c1, oc2) (left_join cs) ->
    In c1 cs
    /\ match oc2 with
       | None => forall p, In p cs -> previous_of c1 p = false
       | Some p => In p cs /\ previous_of c1 p = true
       end.
Proof.
  intros cs c1 oc2 H. unfold left_join in H.
  apply in_flat_map in H. destruct H as [c [Hc Hin]].
  destruct (filter (previous_of c) cs) as [|m ms] eqn:Hf.
  - destruct Hin as [Heq|[]]. inversion Heq; subst. split; [exact Hc|].
    intros p Hp. destruct (previous_of c1 p) eqn:Hpp; [|reflexivity].
    assert (Hin' : In p (filter (previous_of c1) cs)) by (apply filter_In; auto).
    rewrite Hf in Hin'. destruct Hin'.
  - apply in_map_iff in Hin. destruct Hin as [p [Heq Hp]].
    inversion Heq; subst. split; [exact Hc|].
    rewrite <- Hf in Hp. apply filter_In in Hp. exact Hp.
Qed.


(** Two rows that precede the same row have the same key. *)
Lemma previous_same_key :
  forall fips y p p',
    is_previous fips y p = true -> is_previous fips y p' = true ->
    same_key p p' = true.
Proof.
  intros fips y p p'. unfold is_previous, same_key.
  rewrite !andb_true_iff, !String.eqb_eq.
  intros [<- H1] [<- H2]. split; [reflexivity|].
  destruct y as [y|]; [|discriminate].
  destruct (year p) as [a|]; [|discriminate].
  destruct (year p') as [b|]; [|discriminate]. simpl.
  apply Qeq_bool_eq in H1. apply Qeq_bool_eq in H2.
  apply Qeq_eq_bool.
  apply (Qplus_inj_r a b 1). rewrite <- H1. exact H2.
Qed.

End GrowthFacts.


Example two_years_growth :
  map Views.annual_growth_rate (Views.county_growth two_years)
  = [None; Some ((3 # 1) / (2 # 1) - 1)%Q; None; None].
Proof. reflexivity. Qed.


(** * The rankings view *)

Section RankingFacts.
Import Normalizer Views.

Lemma sql_compare_refl : forall a, sql_compare a a = Eq.
Proof.
  intros [x|]; simpl; [|reflexivity]. apply Qeq_alt. reflexivity.
Qed.

Lemma sql_compare_order : forall a b, sql_order a b (sql_compare a b).
Proof.
  intros [x|] [y|]; simpl; try constructor.
  destruct (Qcompare_spec x y); constructor; assumption.
Qed.

Ltac order_cases :=
  repeat match goal with
         | |- context [sql_compare ?a ?b] =>
             let H := fresh "H" in
             pose proof (sql_compare_order a b) as H;
             destruct (sql_compare a b); inversion H; subst; clear H
         | H0 : context [sql_compare ?a ?b] |- _ =>
             let H := fresh "H" in
             pose proof (sql_compare_order a b) as H;
             destruct (sql_compare a b); inversion H; subst; clear H
         end;
  try discriminate; try reflexivity; try congruence.

Lemma desc_total : forall a b, desc a b = false -> desc b a = true.
Proof.
  intros a b. unfold desc. intros H. order_cases; lra.
Qed.

Lemma desc_trans :
  forall a b c, desc a b = true -> desc b c = true -> desc a c = true.
Proof.
  intros a b c. unfold desc. intros H1 H2. order_cases; lra.
Qed.

(** Nothing after a peer of [v] is above [v]. *)
Lemma below_peer_not_greater :
  forall x y v, peer x v = true -> desc x y = true -> greater y v = false.
Proof.
  intros x y v. unfold peer, desc, greater. intros H1 H2. order_cases; lra.
Qed.

(** What comes before a peer of [v] and is no peer of [v] is above [v]. *)
Lemma before_peer_greater :
  forall x w v,
    desc x w = true -> peer w v = true -> peer x v = false -> greater x v = true.
Proof.
  intros x w v. unfold peer, desc, greater. intros H1 H2 H3. order_cases; lra.
Qed.

Lemma peer_not_greater : forall x v, peer x v = true -> greater x v = false.
Proof.
  intros x v. unfold peer, greater. intros H. order_cases.
Qed.

(** Peers have the same values above them. *)
Lemma greater_peer :
  forall x v w, peer v w = true -> greater x v = greater x w.
Proof.
  intros x v w. unfold peer, greater. intros H. order_cases; lra.
Qed.

Lemma same_year_refl : forall y, same_year y y = true.
Proof. intros [y|]; simpl; [apply Qeq_bool_refl|reflexivity]. Qed.

Lemma same_state_refl : forall s, same_state s s = true.
Proof. intros [s|]; simpl; [apply String.eqb_refl|reflexivity]. Qed.

Lemma insert_ordered :
  forall x l, ordered_desc l -> ordered_desc (insert_sorted desc x l).
Proof.
  intros x l. induction l as [|z l IH]; intros Hl; simpl.
  - split; [intros ? []|exact I].
  - destruct Hl as [Hz Hl]. destruct (desc x z) eqn:Hxz; simpl.
    + split; [|split; assumption].
      intros y [<-|Hy]; [exact Hxz|].
      eapply desc_trans; [exact Hxz|now apply Hz].
    + split; [|now apply IH].
      intros y Hy. apply in_insert_sorted in Hy. destruct Hy as [->|Hy].
      * now apply desc_total.
      * now apply Hz.
Qed.

Lemma isort_ordered : forall l, ordered_desc (isort desc l).
Proof.
  induction l as [|x l IH]; simpl; [exact I|now apply insert_ordered].
Qed.

(** In an ordered partition that has a peer of [v], the row number of the
    first peer counts the values above [v]. *)
Lemma first_peer_counts :
  forall v l pos,
    ordered_desc l ->
    (exists x, In x l /\ peer x v = true) ->
    first_peer v pos l = (pos + count_greater l v)%nat.
Proof.
  intros v l. induction l as [|x l IH]; intros pos Ho [w [Hw Hpw]].
  - destruct Hw.
  - destruct Ho as [Hx Ho]. simpl. unfold count_greater. simpl.
    destruct (peer x v) eqn:Hxv.
    + rewrite (peer_not_greater x v Hxv).
      replace (filter (fun y => greater y v) l) with (@nil (option Q)).
      * simpl. lia.
      * symmetry. clear IH Hw. induction l as [|y l IHl]; simpl; [reflexivity|].
        rewrite (below_peer_not_greater x y v Hxv (Hx y (or_introl eq_refl))).
        apply IHl.
        -- intros y' Hy'. apply Hx. now right.
        -- destruct Ho as [_ Ho]. exact Ho.
    + destruct Hw as [<-|Hw]; [congruence|].
      rewrite (before_peer_greater x w v (Hx w Hw) Hpw Hxv). simpl.
      rewrite (IH (S pos) Ho (ex_intro _ w (conj Hw Hpw))).
      unfold count_greater. lia.
Qed.

Lemma rank_counts :
  forall partition v,
    In v partition ->
    rank partition v = S (count_greater partition v).
Proof.
  intros partition v Hin. unfold rank.
  rewrite first_peer_counts.
  - unfold count_greater. now rewrite filter_isort_length.
  - apply isort_ordered.
  - exists v. split; [now apply in_isort|].
    unfold peer. now rewrite sql_compare_refl.
Qed.

Lemma count_greater_peer :
  forall partition v w,
    peer v w = true -> count_greater partition v = count_greater partition w.
Proof.
  intros partition v w H. unfold count_greater. f_equal.
  apply filter_ext. intros x. now apply greater_peer.
Qed.

Lemma same_year_congr :
  forall a b y, same_year a b = true -> same_year y a = same_year y b.
Proof.
  intros [a|] [b|] [y|]; simpl; try discriminate; try reflexivity.
  intros H. destruct (Qeq_bool y b) eqn:Hb.
  - eapply Qeq_bool_trans; [exact Hb|now apply Qeq_bool_sym].
  - destruct (Qeq_bool y a) eqn:Ha; [|reflexivity].
    rewrite <- Hb. symmetry. eapply Qeq_bool_trans; eauto.
Qed.

Lemma same_state_congr :
  forall a b s, same_state a b = true -> same_state s a = same_state s b.
Proof.
  intros [a|] [b|] [s|]; simpl; try discriminate; try reflexivity.
  intros H. apply String.eqb_eq in H. now subst.
Qed.

Lemma state_partition_congr :
  forall st st' y y' cs,
    same_state st st' = true -> same_year y y' = true ->
    state_partition st y cs = state_partition st' y' cs.
Proof.
  intros st st' y y' cs Hs Hy. unfold state_partition.
  apply filter_ext. intros c.
  now rewrite (same_state_congr _ _ _ Hs), (same_year_congr _ _ _ Hy).
Qed.

Lemma year_partition_congr :
  forall y y' cs, same_year y y' = true -> year_partition y cs = year_partition y' cs.
Proof.
  intros y y' cs Hy. unfold year_partition.
  apply filter_ext. intros c. now rewrite (same_year_congr _ _ _ Hy).
Qed.

(** The two ranks of the view row of a stored row. *)
Lemma select_ranking_ranks :
  forall cs c,
    In c cs ->
    rank_in_state (select_ranking cs c)
    = S (count_greater
           (map gdp_billions (state_partition (state_code c) (year c) cs))
           (gdp_billions c))
    /\ rank_national (select_ranking cs c)
       = S (count_greater (map gdp_billions (year_partition (year c) cs))
                          (gdp_billions c)).
Proof.
  intros cs c Hin. simpl. split; apply rank_counts; apply in_map;
    apply filter_In; (split; [exact Hin|]).
  - now rewrite same_state_refl, same_year_refl.
  - apply same_year_refl.
Qed.

End RankingFacts.

(** C8: in [county_rankings_by_year], the rank in the state of a row is one
    plus the number of rows of its (state_code, year) partition whose GDP is
    strictly above its own, and its national rank is the same count over
    its year partition; two rows of one partition with equal GDP have equal
    rank.  GDP values are taken in the order of ORDER BY, where a NULL is
    below every number and the NULLs are equal. *)
Theorem county_rankings_rank :
  forall (cs : list Normalizer.county_record) (v : Views.ranking_row),
    In v (Views.county_rankings_by_year cs) ->
    Views.rank_in_state v
    = S (Views.count_greater
           (map Normalizer.gdp_billions
                (Views.state_partition (Views.rk_state_code v) (Views.rk_year v) cs))
           (Views.rk_gdp_billions v))
    /\ Views.rank_national v
       = S (Views.count_greater
              (map Normalizer.gdp_billions (Views.year_partition (Views.rk_year v) cs))
              (Views.rk_gdp_billions v))
    /\ forall w,
         In w (Views.county_rankings_by_year cs) ->
         Views.peer (Views.rk_gdp_billions v) (Views.rk_gdp_billions w) = true ->
         Views.same_year (Views.rk_year v) (Views.rk_year w) = true ->
         Views.rank_national v = Views.rank_national w
         /\ (Views.same_state (Views.rk_state_code v) (Views.rk_state_code w) = true ->
             Views.rank_in_state v = Views.rank_in_state w).
Proof.
  intros cs v Hv. unfold Views.county_rankings_by_year in Hv.
  apply in_map_iff in Hv. destruct Hv as [c [<- Hc]].
  destruct (select_ranking_ranks cs c Hc) as [Hs Hn].
  split; [exact Hs|]. split; [exact Hn|].
  intros w Hw Hpeer Hyear.
  apply in_map_iff in Hw. destruct Hw as [c' [<- Hc']].
  destruct (select_ranking_ranks cs c' Hc') as [Hs' Hn'].
  rewrite Hs, Hn, Hs', Hn'. simpl in Hpeer, Hyear. split.
  - rewrite (year_partition_congr _ _ cs Hyear).
    now rewrite (count_greater_peer _ _ _ Hpeer).
  - intros Hstate. simpl in Hstate.
    rewrite (state_partition_congr _ _ _ _ cs Hstate Hyear).
    now rewrite (count_greater_peer _ _ _ Hpeer).
Qed.

Example two_years_rankings :
  map (fun v => (Views.rk_county_name v, Views.rank_in_state v, Views.rank_national v))
      (Views.county_rankings_by_year two_years)
  = [(Some "Autauga", 1%nat, 1%nat); (Some "Autauga", 1%nat, 1%nat);
     (Some "Baldwin", 1%nat, 1%nat); (Some "Barbour", 3%nat, 3%nat)].
Proof. reflexivity. Qed.

Lemma county_rankings_rank_witness :
  Views.rank_in_state barbour_ranking_2020
  = S (Views.count_greater
         (map Normalizer.gdp_billions
              (Views.state_partition (Views.rk_state_code barbour_ranking_2020)
                                     (Views.rk_year barbour_ranking_2020) two_years))
         (Views.rk_gdp_billions barbour_ranking_2020)).
Proof.
  apply (county_rankings_rank two_years barbour_ranking_2020).
  right; right; right; left; reflexivity.
Defined.

(** * Labels and the two extractions *)

Section LabelFacts.
Import Text.

Lemma of_string_app :
  forall s1 s2, of_string (s1 ++ s2) = (of_string s1 ++ of_string s2)%list.
Proof.
  induction s1 as [|c s1 IH]; intros s2; simpl; [reflexivity|].
  unfold of_string in *. simpl. now rewrite IH.
Qed.

Lemma to_string_app :
  forall l1 l2, to_string (l1 ++ l2)%list = to_string l1 ++ to_string l2.
Proof.
  induction l1 as [|c l1 IH]; intros l2; simpl; [reflexivity|].
  unfold to_string in *. simpl. now rewrite IH.
Qed.

Lemma to_of_string : forall s, to_string (of_string s) = s.
Proof. intros s. apply string_of_list_ascii_of_string. Qed.

Lemma of_to_string : forall l, of_string (to_string l) = l.
Proof. intros l. apply list_ascii_of_string_of_list_ascii. Qed.

Lemma take_drop_while :
  forall p l, (take_while p l ++ drop_while p l)%list = l.
Proof.
  intros p l. induction l as [|c l IH]; simpl; [reflexivity|].
  destruct (p c); simpl; [now rewrite IH|reflexivity].
Qed.

Lemma take_while_all :
  forall p l, forallb p l = true -> take_while p l = l.
Proof.
  intros p l. induction l as [|c l IH]; simpl; [reflexivity|].
  intros H. apply andb_true_iff in H. destruct H as [Hc Hl].
  rewrite Hc. now rewrite IH.
Qed.

Lemma take_while_holds :
  forall p l, forallb p (take_while p l) = true.
Proof.
  intros p l. induction l as [|c l IH]; simpl; [reflexivity|].
  destruct (p c) eqn:Hc; simpl; [now rewrite Hc|reflexivity].
Qed.

Lemma forallb_rev :
  forall (p : ascii -> bool) l, forallb p (rev l) = forallb p l.
Proof.
  intros p l. induction l as [|c l IH]; simpl; [reflexivity|].
  rewrite forallb_app, IH. simpl. rewrite andb_true_r. apply andb_comm.
Qed.

(** A character of a word is no newline. *)
Lemma word_not_newline : forall c, is_word c = true -> is_newline c = false.
Proof.
  intros c. unfold is_word, is_newline, is_digit, is_upper, is_lower, between.
  destruct (Nat.eqb_spec (code c) 10) as [->|]; [simpl; discriminate|reflexivity].
Qed.

Lemma rev_label :
  forall name a b,
    rev (of_string (Label.make name a b))
    = b :: a :: " "%char :: ","%char :: rev (of_string name).
Proof.
  intros name a b. unfold Label.make, Label.code2.
  rewrite of_string_app. rewrite rev_app_distr. reflexivity.
Qed.

End LabelFacts.

(** Round trip of the historical script: a label made of a one-line name,
    a comma, a space and two word characters is taken apart into that name
    and that code. *)
Theorem extract_name_state_of_label :
  forall (name : string) (a b : ascii),
    Text.is_word a = true -> Text.is_word b = true ->
    Label.one_line name = true ->
    Regex.extract_name_state (Label.make name a b)
    = Some (name, Label.code2 a b).
Proof.
  intros name a b Ha Hb Hone. unfold Regex.extract_name_state.
  rewrite rev_label. simpl Text.before_dollar.
  rewrite (word_not_newline b Hb). simpl fst. cbv iota beta.
  rewrite Ha, Hb. simpl.
  rewrite take_while_all.
  - rewrite rev_involutive, to_of_string. reflexivity.
  - rewrite forallb_rev. exact Hone.
Qed.

Lemma extract_name_state_of_label_witness :
  Regex.extract_name_state (Label.make "Prince George's" "M" "D")
  = Some ("Prince George's", Label.code2 "M" "D").
Proof.
  apply extract_name_state_of_label; reflexivity.
Defined.

Section ExtractInverse.
Import Text.

Lemma before_dollar_split :
  forall r, r = (snd (before_dollar r) ++ fst (before_dollar r))%list
            /\ (snd (before_dollar r) = [] \/ snd (before_dollar r) = [newline]).
Proof.
  intros [|c t]; simpl; [auto|].
  destruct (is_newline c) eqn:Hc; simpl; [|auto].
  split; [reflexivity|]. right. f_equal.
  unfold is_newline, code in Hc. apply Nat.eqb_eq in Hc.
  rewrite <- (ascii_nat_embedding c), Hc. reflexivity.
Qed.

Lemma drop_while_head :
  forall p l, drop_while p l = []
              \/ exists c t, drop_while p l = c :: t /\ p c = false.
Proof.
  intros p l. induction l as [|c l IH]; simpl; [auto|].
  destruct (p c) eqn:Hc; [exact IH|]. right. eauto.
Qed.

Lemma eqb_char : forall c d, Ascii.eqb c d = true -> c = d.
Proof. intros c d H. now apply Ascii.eqb_eq. Qed.

End ExtractInverse.

(** What a match of the historical extraction says of the label: it is some
    text that is empty or ends a line, then the name, which has no newline,
    a comma, a space, the code, which is two word characters, and at most
    one final newline. *)
Theorem extract_name_state_shape :
  forall (s name code : string),
    Regex.extract_name_state s = Some (name, code) ->
    exists (before : string) (a b : ascii) (final : string),
      s = before ++ Label.make name a b ++ final
      /\ code = Label.code2 a b
      /\ Text.is_word a = true /\ Text.is_word b = true
      /\ Label.one_line name = true
      /\ (final = "" \/ final = String Text.newline "")
      /\ (before = "" \/ exists t, before = t ++ String Text.newline "").
Proof.
  intros s name code H. unfold Regex.extract_name_state in H.
  destruct (before_dollar_split (rev (Text.of_string s))) as [Hsplit Hnl].
  destruct (fst (Text.before_dollar (rev (Text.of_string s))))
    as [|b [|a [|sp [|co rest]]]] eqn:Hr; try discriminate.
  destruct (Text.is_word a) eqn:Ha; [|discriminate].
  destruct (Text.is_word b) eqn:Hb; [|discriminate].
  destruct (Ascii.eqb sp " ") eqn:Hsp; [|discriminate].
  destruct (Ascii.eqb co ",") eqn:Hco; [|discriminate].
  simpl in H. inversion H as [[Hname Hcode]]. clear H.
  apply eqb_char in Hsp. apply eqb_char in Hco. subst sp co.
  set (keep := Text.take_while (fun c => negb (Text.is_newline c)) rest) in *.
  set (more := Text.drop_while (fun c => negb (Text.is_newline c)) rest).
  assert (Hrest : rest = (keep ++ more)%list)
    by (symmetry; apply take_drop_while).
  set (nl := snd (Text.before_dollar (rev (Text.of_string s)))) in *.
  assert (Hs : Text.of_string s
               = (rev more ++ rev keep ++ [","%char; " "%char; a; b] ++ rev nl)%list).
  { rewrite <- (rev_involutive (Text.of_string s)), Hsplit, Hrest.
    rewrite rev_app_distr. simpl. rewrite rev_app_distr.
    repeat (simpl; rewrite <- ?app_assoc). reflexivity. }
  exists (Text.to_string (rev more)), a, b, (Text.to_string (rev nl)).
  subst name code.
  split; [|split; [reflexivity|split; [exact Ha|split; [exact Hb|split; [|split]]]]].
  - rewrite <- (to_of_string s) at 1.
    rewrite <- (to_of_string (_ ++ Label.make _ a b ++ _)). f_equal.
    rewrite Hs. unfold Label.make, Label.code2.
    rewrite !of_string_app, !of_to_string. simpl.
    now rewrite <- !app_assoc.
  - unfold Label.one_line. rewrite of_to_string, forallb_rev.
    apply take_while_holds.
  - destruct Hnl as [->| ->]; [left|right]; reflexivity.
  - destruct (drop_while_head (fun c => negb (Text.is_newline c)) rest)
      as [Hm|[c [t [Hm Hc]]]]; fold more in Hm; rewrite Hm.
    + left. reflexivity.
    + right. exists (Text.to_string (rev t)). simpl. rewrite to_string_app.
      f_equal. apply negb_false_iff in Hc.
      unfold Text.is_newline, Text.code in Hc. apply Nat.eqb_eq in Hc.
      rewrite <- (ascii_nat_embedding c), Hc. reflexivity.
Qed.

Lemma extract_name_state_shape_witness :
  exists (before : string) (a b : ascii) (final : string),
    "Autauga, AL" = before ++ Label.make "Autauga" a b ++ final
    /\ "AL" = Label.code2 a b
    /\ Text.is_word a = true /\ Text.is_word b = true
    /\ Label.one_line "Autauga" = true
    /\ (final = "" \/ final = String Text.newline "")
    /\ (before = "" \/ exists t, before = t ++ String Text.newline "").
Proof.
  apply (extract_name_state_shape "Autauga, AL" "Autauga" "AL").
  reflexivity.
Defined.

(** * The two scripts on the same row *)

(** The two scripts read the same state code off every label, and, where
    the data value is a number, the GDP in "billions" of the single-year
    script is the one of the historical script divided by 1000: the first
    divides the value by 1,000,000, the second by 1,000. *)
Theorem scripts_same_state_different_scale :
  forall r : Normalizer.raw_row,
    SingleYear.State (SingleYear.clean_row r) = Normalizer.state_of r
    /\ match SingleYear.GDP_Billions (SingleYear.clean_row r), Normalizer.gdp_of r with
       | Some x, Some y => (x * inject_Z 1000 == y)%Q
       | None, None => True
       | _, _ => False
       end.
Proof.
  intros r. split.
  - unfold SingleYear.clean_row, Normalizer.state_of; simpl.
    unfold Regex.extract_state, Regex.extract_name_state.
    destruct (fst (Text.before_dollar (rev (Text.of_string (Normalizer.GeoName r)))))
      as [|b [|a [|sp [|co rest]]]]; try reflexivity.
    destruct (Text.is_word a && Text.is_word b && Ascii.eqb sp " " && Ascii.eqb co ",")%bool;
      reflexivity.
  - unfold SingleYear.clean_row, Normalizer.gdp_of.
    cbn [SingleYear.GDP_Billions].
    destruct (Numeric.to_numeric_coerce
                (Text.to_string
                   (Text.remove_commas (Text.of_string (Normalizer.DataValue r)))))
      as [q|]; cbn [option_map]; [|exact I].
    rewrite !Qred_correct. field.
Qed.

(** A label from which the single-year script reads no state code is left
    whole in its county column. *)
Theorem remove_county_suffix_without_code :
  forall s : string,
    Regex.extract_state s = None ->
    Regex.remove_county_suffix s = s.
Proof.
  intros s. unfold Regex.extract_state, Regex.remove_county_suffix.
  destruct (Text.before_dollar (rev (Text.of_string s))) as [r nl]. simpl fst.
  destruct r as [|b [|a rest]]; try reflexivity.
  destruct rest as [|c9 [|c8 rest]].
  - intros _. destruct (Text.is_word a && Text.is_word b)%bool; reflexivity.
  - intros _. destruct (Text.is_word a && Text.is_word b)%bool; reflexivity.
  - destruct (Text.is_word a && Text.is_word b)%bool eqn:Hw; [|reflexivity].
    intros H.
    destruct rest as [|c7 [|c6 [|c5 [|c4 [|c3 [|c2 [|c1 rest]]]]]]]; try reflexivity.
    destruct (String.eqb (Text.to_string [c1; c2; c3; c4; c5; c6; c7; c8; c9]) " County, ")
      eqn:He; [|reflexivity].
    apply String.eqb_eq in He. unfold Text.to_string in He. simpl in He.
    inversion He; subst. simpl in H. discriminate.
Qed.

Lemma remove_county_suffix_without_code_witness :
  Regex.remove_county_suffix "United States" = "United States".
Proof.
  apply remove_county_suffix_without_code. reflexivity.
Defined.

(** On a label that does name the county with the word County, the
    single-year script cuts the name before it and reads the code. *)
Theorem single_year_county_label :
  forall (name : string) (a b : ascii),
    Text.is_word a = true -> Text.is_word b = true ->
    Regex.remove_county_suffix (Label.make (name ++ " County") a b) = name
    /\ Regex.extract_state (Label.make (name ++ " County") a b)
       = Some (Label.code2 a b).
Proof.
  intros name a b Ha Hb.
  unfold Regex.remove_county_suffix, Regex.extract_state.
  rewrite rev_label. rewrite of_string_app, rev_app_distr.
  simpl Text.before_dollar. rewrite (word_not_newline b Hb).
  cbv iota beta. simpl. rewrite !Ha, !Hb. simpl.
  rewrite app_nil_r, rev_involutive, to_of_string. split; reflexivity.
Qed.

Lemma single_year_county_label_witness :
  Regex.remove_county_suffix (Label.make ("Autauga" ++ " County") "A" "L") = "Autauga"
  /\ Regex.extract_state (Label.make ("Autauga" ++ " County") "A" "L")
     = Some (Label.code2 "A" "L").
Proof.
  apply single_year_county_label; reflexivity.
Defined.

(** * More on the Aggregator *)

Section TotalsFacts.
Import Normalizer Aggregator Totals.

Lemma present_missing_length :
  forall rows : list county_record,
    (List.length (present (map gdp_billions rows))
     + List.length (filter gdp_missing rows))%nat
    = List.length rows.
Proof.
  induction rows as [|r rows IH]; simpl; [reflexivity|].
  unfold gdp_missing at 1. destruct (gdp_billions r); simpl; lia.
Qed.

Lemma populated_step :
  forall rows gs r,
    distinct gs -> populated rows gs -> populated (rows ++ [r]) (add_row gs r).
Proof.
  intros rows gs r Hd Hp. unfold add_row.
  destruct (key_of r) as [k|] eqn:Hk.
  - intros g' Hin.
    destruct (add_cell_cases k _ gs Hd g' Hin) as [[H1 _]|[[g [H1 [_ ->]]]|[_ ->]]].
    + destruct (Hp g' H1) as [r0 [Hr0 Hg]]. exists r0. split; [|exact Hg].
      apply in_or_app. now left.
    + rewrite summary_key_observe. destruct (Hp g H1) as [r0 [Hr0 Hg]].
      exists r0. split; [|exact Hg]. apply in_or_app. now left.
    + rewrite summary_key_observe, summary_key_empty. exists r. split.
      * apply in_or_app. right. now left.
      * rewrite (in_group_keyed _ _ _ Hk). apply key_eqb_refl.
  - intros g Hin. destruct (Hp g Hin) as [r0 [Hr0 Hg]].
    exists r0. split; [|exact Hg]. apply in_or_app. now left.
Qed.

Lemma group_rows_populated : forall rows, populated rows (group_rows rows).
Proof.
  intros rows. unfold group_rows. induction rows as [|r rows IH] using rev_ind.
  - intros g [].
  - rewrite fold_left_app. simpl. apply populated_step; [|exact IH].
    destruct (group_rows_grouped rows) as (Hd & _). exact Hd.
Qed.

Lemma add_cell_totals :
  forall k v gs,
    (grand_total (add_cell k v gs) == grand_total gs + cell_value v)%Q
    /\ grand_count (add_cell k v gs) = (grand_count gs + cell_count v)%nat.
Proof.
  intros k v gs. unfold grand_total, grand_count.
  induction gs as [|g t [IHt IHc]]; simpl.
  - destruct v as [q|]; simpl; split; try reflexivity; ring.
  - destruct (key_eqb (summary_key g) k); simpl.
    + destruct v as [q|]; simpl; split; try lia; ring.
    + rewrite IHt, IHc. split; [ring|lia].
Qed.

Lemma insert_totals :
  forall x l,
    (grand_total (insert_sorted key_leb x l) == total_gdp x + grand_total l)%Q
    /\ grand_count (insert_sorted key_leb x l) = (num_counties x + grand_count l)%nat.
Proof.
  intros x l. unfold grand_total, grand_count.
  induction l as [|z l [IHt IHc]]; simpl.
  - split; reflexivity.
  - destruct (key_leb x z); simpl; [split; reflexivity|].
    rewrite IHt, IHc. split; [ring|lia].
Qed.

Lemma isort_totals :
  forall l,
    (grand_total (isort key_leb l) == grand_total l)%Q
    /\ grand_count (isort key_leb l) = grand_count l.
Proof.
  induction l as [|x l [IHt IHc]]; simpl.
  - split; reflexivity.
  - destruct (insert_totals x (isort key_leb l)) as [Ht Hc].
    rewrite Ht, Hc, IHt, IHc. unfold grand_total, grand_count. simpl.
    split; reflexivity.
Qed.

Lemma keyed_values_snoc :
  forall rows r,
    present (map gdp_billions (filter keyed (rows ++ [r])))
    = (present (map gdp_billions (filter keyed rows))
       ++ (if keyed r then present [gdp_billions r] else []))%list.
Proof.
  intros rows r. rewrite filter_app, map_app, present_app. simpl.
  destruct (keyed r); reflexivity.
Qed.

Lemma group_rows_totals :
  forall rows,
    (grand_total (group_rows rows)
     == Qsum (present (map gdp_billions (filter keyed rows))))%Q
    /\ grand_count (group_rows rows)
       = List.length (present (map gdp_billions (filter keyed rows))).
Proof.
  intros rows. unfold group_rows. induction rows as [|r rows [IHt IHc]] using rev_ind.
  - split; reflexivity.
  - rewrite fold_left_app, keyed_values_snoc. simpl fold_left.
    destruct (key_of r) as [k|] eqn:Hk.
    + replace (add_row (fold_left add_row rows []) r)
        with (add_cell k (gdp_billions r) (fold_left add_row rows []))
        by (unfold add_row; now rewrite Hk).
      replace (keyed r) with true by (unfold keyed; now rewrite Hk).
      destruct (add_cell_totals k (gdp_billions r) (fold_left add_row rows []))
        as [Ht Hc].
      rewrite Ht, Hc, IHt, IHc.
      destruct (gdp_billions r) as [q|]; simpl.
      * rewrite Qsum_snoc, length_app. simpl. split; [reflexivity|lia].
      * rewrite app_nil_r. split; [ring|lia].
    + replace (add_row (fold_left add_row rows []) r)
        with (fold_left add_row rows [])
        by (unfold add_row; now rewrite Hk).
      replace (keyed r) with false by (unfold keyed; now rewrite Hk).
      rewrite app_nil_r. split; assumption.
Qed.

End TotalsFacts.

Lemma state_summaries_sum_and_count_witness :
  (Aggregator.total_gdp (Aggregator.mk_summary "AL" (2020 # 1) (0 + (2469 # 2000)) 1)
   == Aggregator.Qsum
        (Aggregator.present
           (map Normalizer.gdp_billions
                (Aggregator.members
                   (Aggregator.summary_key
                      (Aggregator.mk_summary "AL" (2020 # 1) (0 + (2469 # 2000)) 1))
                   suppressed_data))))%Q
  /\ Aggregator.num_counties (Aggregator.mk_summary "AL" (2020 # 1) (0 + (2469 # 2000)) 1)
     = List.length
         (Aggregator.present
            (map Normalizer.gdp_billions
                 (Aggregator.members
                    (Aggregator.summary_key
                       (Aggregator.mk_summary "AL" (2020 # 1) (0 + (2469 # 2000)) 1))
                    suppressed_data))).
Proof.
  apply (state_summaries_sum_and_count suppressed_data).
  left. reflexivity.
Defined.

(** [num_counties] of a group falls short of the number of its records by
    the number of them whose GDP is null; and a group is never without
    records. *)
Theorem num_counties_and_group_size :
  forall (rows : list Normalizer.county_record) (g : Aggregator.state_summary),
    In g (Aggregator.state_summaries rows) ->
    (Aggregator.num_counties g
     + List.length (filter Totals.gdp_missing
                           (Aggregator.members (Aggregator.summary_key g) rows)))%nat
    = List.length (Aggregator.members (Aggregator.summary_key g) rows)
    /\ Aggregator.members (Aggregator.summary_key g) rows <> [].
Proof.
  intros rows g Hin. unfold Aggregator.state_summaries in Hin.
  apply in_isort in Hin.
  destruct (group_rows_grouped rows) as (_ & He & _).
  destruct (He g Hin) as [_ Hc]. split.
  - rewrite Hc. unfold Aggregator.vals. apply present_missing_length.
  - destruct (group_rows_populated rows g Hin) as [r [Hr Hg]].
    intros Hnil.
    assert (Hm : In r (Aggregator.members (Aggregator.summary_key g) rows))
      by (apply filter_In; auto).
    rewrite Hnil in Hm. destruct Hm.
Qed.

Lemma num_counties_and_group_size_witness :
  (Aggregator.num_counties (Aggregator.mk_summary "AL" (2020 # 1) (0 + (2469 # 2000)) 1)
   + List.length
       (filter Totals.gdp_missing
               (Aggregator.members ("AL", (2020 # 1)%Q) suppressed_data)))%nat
  = List.length (Aggregator.members ("AL", (2020 # 1)%Q) suppressed_data)
  /\ Aggregator.members ("AL", (2020 # 1)%Q) suppressed_data <> [].
Proof.
  apply (num_counties_and_group_size suppressed_data
           (Aggregator.mk_summary "AL" (2020 # 1) (0 + (2469 # 2000)) 1)).
  left. reflexivity.
Defined.

(** Nothing is lost between the groups: the totals of all the summaries add
    up to the sum of the GDP values of the records that have a state code
    and a year, and the counts add up to the number of those values. *)
Theorem state_summaries_grand_totals :
  forall rows : list Normalizer.county_record,
    (Totals.grand_total (Aggregator.state_summaries rows)
     == Aggregator.Qsum
          (Aggregator.present
             (map Normalizer.gdp_billions (filter Totals.keyed rows))))%Q
    /\ Totals.grand_count (Aggregator.state_summaries rows)
       = List.length
           (Aggregator.present
              (map Normalizer.gdp_billions (filter Totals.keyed rows))).
Proof.
  intros rows. unfold Aggregator.state_summaries.
  destruct (isort_totals (Aggregator.group_rows rows)) as [Ht Hc].
  destruct (group_rows_totals rows) as [Ht' Hc'].
  rewrite Ht, Hc. split; assumption.
Qed.

(** * The store, once more *)

Section OverwriteFacts.
Import Store.

Lemma add_name_present :
  forall n l, existsb (String.eqb n) l = true -> add_name n l = l.
Proof. intros n l H. unfold add_name. now rewrite H. Qed.

Lemma existsb_add_name :
  forall n m l,
    existsb (String.eqb n) (add_name m l)
    = (existsb (String.eqb n) l || String.eqb n m)%bool.
Proof.
  intros n m l. unfold add_name.
  destruct (existsb (String.eqb m) l) eqn:Hm.
  - destruct (String.eqb_spec n m) as [->|Hne].
    + rewrite Hm. reflexivity.
    + now rewrite orb_false_r.
  - rewrite existsb_app. simpl. now rewrite orb_false_r.
Qed.

Lemma filter_add_name_out :
  forall (p : string -> bool) n l,
    p n = false -> filter p (add_name n l) = filter p l.
Proof.
  intros p n l Hn. unfold add_name.
  destruct (existsb (String.eqb n) l); [reflexivity|].
  rewrite filter_app. simpl. rewrite Hn. apply app_nil_r.
Qed.

Lemma filter_twice :
  forall (A : Type) (p : A -> bool) l, filter p (filter p l) = filter p l.
Proof.
  intros A p l. induction l as [|x l IH]; simpl; [reflexivity|].
  destruct (p x) eqn:Hx; simpl; [rewrite Hx; now f_equal|exact IH].
Qed.

(** The three views of a file that has been through a run are in place. *)
Lemma views_settled :
  forall v,
    let v' := add_name "county_rankings_by_year"
                (add_name "state_growth" (add_name "county_growth" v)) in
    add_name "county_rankings_by_year"
      (add_name "state_growth" (add_name "county_growth" v')) = v'.
Proof.
  intros v v'.
  assert (H1 : existsb (String.eqb "county_growth") v' = true).
  { unfold v'. rewrite !existsb_add_name. simpl. now rewrite orb_true_r. }
  assert (H2 : existsb (String.eqb "state_growth") v' = true).
  { unfold v'. rewrite !existsb_add_name. simpl. now rewrite !orb_true_r. }
  assert (H3 : existsb (String.eqb "county_rankings_by_year") v' = true).
  { unfold v'. rewrite !existsb_add_name. simpl. now rewrite !orb_true_r. }
  rewrite (add_name_present _ _ H1), (add_name_present _ _ H2).
  now rewrite (add_name_present _ _ H3).
Qed.

Lemma indexes_settled :
  forall i,
    let i' := add_name "idx_counties_fips_year"
                (add_name "idx_counties_gdp"
                   (add_name "idx_counties_state_year" (filter Overwrite.off_counties i))) in
    add_name "idx_counties_fips_year"
      (add_name "idx_counties_gdp"
         (add_name "idx_counties_state_year" (filter Overwrite.off_counties i'))) = i'.
Proof.
  intros i i'.
  assert (H : filter Overwrite.off_counties i' = filter Overwrite.off_counties i).
  { unfold i'. rewrite !filter_add_name_out by reflexivity. apply filter_twice. }
  rewrite H. reflexivity.
Qed.

End OverwriteFacts.

(** A run replaces both tables whatever the file held: after
    [create_database] the states table is the summaries of the new data and
    the counties table is the new data, each with the plain columns of its
    frame and no key; no row and no constraint of the earlier tables is
    left. *)
Theorem create_database_full_overwrite :
  forall (all_data : list Normalizer.county_record) (db : Store.database),
    Store.states (Store.create_database all_data db)
    = Some (Store.mk_table
              (Store.frame_schema ["state_code"; "year"; "total_gdp"; "num_counties"])
              (Aggregator.state_summaries all_data))
    /\ Store.counties (Store.create_database all_data db)
       = Some (Store.mk_table (Store.frame_schema Store.counties_columns) all_data).
Proof.
  intros all_data [s c v i]. unfold Store.create_database, Store.create_database_with.
  destruct s, c; simpl; split; reflexivity.
Qed.

(** Running [create_database] again on the same data changes nothing: the
    file after two runs is the file after one. *)
Theorem create_database_idempotent :
  forall (all_data : list Normalizer.county_record) (db : Store.database),
    Store.create_database all_data (Store.create_database all_data db)
    = Store.create_database all_data db.
Proof.
  intros all_data [s c v i]. unfold Store.create_database, Store.create_database_with.
  destruct s, c; simpl;
    (f_equal; [apply views_settled | apply indexes_settled]).
Qed.

(** The reference of the counties table holds of the rows, though no key
    declares it: every stored county row that has a state code and a year
    finds a states row with that state code and year. *)
Theorem stored_counties_have_parent :
  forall (all_data : list Normalizer.county_record) (db : Store.database)
         (r : Normalizer.county_record) (k : Aggregator.key),
    In r (Store.rows_of (Store.counties (Store.create_database all_data db))) ->
    Aggregator.key_of r = Some k ->
    exists g,
      In g (Store.rows_of (Store.states (Store.create_database all_data db)))
      /\ Aggregator.key_eqb (Aggregator.summary_key g) k = true.
Proof.
  intros all_data db r k Hr Hk.
  destruct (create_database_rows all_data db) as [Hs Hc].
  rewrite Hc in Hr. rewrite Hs.
  destruct (group_rows_grouped all_data) as (_ & _ & Hcov).
  destruct (Hcov r k Hr Hk) as [g [Hg Hgk]].
  exists g. split; [|exact Hgk].
  unfold Aggregator.state_summaries. now apply in_isort.
Qed.

Lemma stored_counties_have_parent_witness :
  exists g,
    In g (Store.rows_of (Store.states (Store.create_database new_data prior_db)))
    /\ Aggregator.key_eqb (Aggregator.summary_key g) ("AL", inject_Z 2020) = true.
Proof.
  apply (stored_counties_have_parent new_data prior_db
           (county "01003" "Baldwin" "AL" (3 # 1) 2020)).
  - right; left; reflexivity.
  - reflexivity.
Defined.

(** * The view of state growth over the summaries *)

Section StateGrowthFacts.
Import Aggregator StateGrowth.

Lemma filter_none :
  forall (A : Type) (p : A -> bool) l,
    (forall x, In x l -> p x = false) -> filter p l = [].
Proof.
  intros A p l H. induction l as [|x l IH]; simpl; [reflexivity|].
  rewrite (H x (or_introl eq_refl)). apply IH. intros y Hy. apply H. now right.
Qed.

(** Two summaries that precede the same summary have keys that meet. *)
Lemma previous_summaries_meet :
  forall s p p',
    previous_summary s p = true -> previous_summary s p' = true ->
    key_eqb (summary_key p) (summary_key p') = true.
Proof.
  intros s p p'. unfold previous_summary, key_eqb, summary_key. simpl.
  rewrite !andb_true_iff, !String.eqb_eq.
  intros [H1 H2] [H3 H4]. split; [congruence|].
  apply Qeq_bool_eq in H2. apply Qeq_bool_eq in H4. apply Qeq_eq_bool.
  apply (Qplus_inj_r _ _ 1). rewrite <- H2. exact H4.
Qed.

(** Among summaries with distinct keys at most one precedes [s]: the one
    [find] gives. *)
Lemma previous_unique :
  forall s ss,
    distinct ss ->
    filter (previous_summary s) ss
    = match find (previous_summary s) ss with
      | Some p => [p]
      | None => []
      end.
Proof.
  intros s ss. induction ss as [|g t IH]; intros Hd; simpl; [reflexivity|].
  destruct Hd as [Hg Ht].
  destruct (previous_summary s g) eqn:Hp; [|now apply IH].
  f_equal. apply filter_none. intros g' Hg'.
  destruct (previous_summary s g') eqn:Hp'; [|reflexivity].
  rewrite <- (Hg g' Hg'). symmetry. eapply previous_summaries_meet; eauto.
Qed.

Lemma flat_map_singleton :
  forall (A B : Type) (f : A -> B) l, flat_map (fun x => [f x]) l = map f l.
Proof.
  intros A B f l. induction l as [|x l IH]; simpl; [reflexivity|]. now f_equal.
Qed.

Lemma left_join_functional :
  forall ss,
    distinct ss ->
    left_join ss = map (fun s => (s, find (previous_summary s) ss)) ss.
Proof.
  intros ss Hd. unfold left_join.
  rewrite <- flat_map_singleton. apply flat_map_ext.
  intros s. rewrite (previous_unique s ss Hd).
  destruct (find (previous_summary s) ss); reflexivity.
Qed.

End StateGrowthFacts.

(** Over the states table a run writes, the view [state_growth] has exactly
    one row per summary, in the order of the table: the summary joined with
    the one summary of the same state and the year before, if there is one.
    Its rate is then total over previous total minus one, null if the
    previous total is zero, and null if there is no such summary. *)
Theorem state_growth_over_summaries :
  forall rows : list Normalizer.county_record,
    let ss := Aggregator.state_summaries rows in
    StateGrowth.state_growth ss
    = map (fun s =>
             StateGrowth.select_state_growth
               (s, find (StateGrowth.previous_summary s) ss))
          ss
    /\ List.length (StateGrowth.state_growth ss) = List.length ss.
Proof.
  intros rows ss.
  assert (Hd : Aggregator.distinct ss).
  { unfold ss, Aggregator.state_summaries. apply distinct_isort.
    destruct (group_rows_grouped rows) as (Hd & _). exact Hd. }
  assert (Heq : StateGrowth.state_growth ss
                = map (fun s => StateGrowth.select_state_growth
                                  (s, find (StateGrowth.previous_summary s) ss)) ss).
  { unfold StateGrowth.state_growth.
    rewrite (left_join_functional ss Hd), map_map. reflexivity. }
  split; [exact Heq|]. rewrite Heq. apply length_map.
Qed.

Example state_growth_two_years :
  map StateGrowth.sg_annual_growth_rate
      (StateGrowth.state_growth (Aggregator.state_summaries two_years))
  = [None; Some ((0 + (3 # 1) + (3 # 1) + (1 # 1)) / (0 + (2 # 1)) - 1)%Q].
Proof. reflexivity. Qed.

(** * More on the growth view *)

Section GrowthCoverage.
Import Normalizer Views Keys.

Lemma joined_rows_nonempty :
  forall cs c,
    exists p rest,
      match filter (previous_of c) cs with
      | [] => [(c, None)]
      | ms => map (fun c2 => (c, Some c2)) ms
      end = (c, p) :: rest.
Proof.
  intros cs c. destruct (filter (previous_of c) cs) as [|m ms]; simpl; eauto.
Qed.

Lemma flat_map_length_ge :
  forall (A B : Type) (f : A -> list B) l,
    (forall x, (1 <= List.length (f x))%nat) ->
    (List.length l <= List.length (flat_map f l))%nat.
Proof.
  intros A B f l H. induction l as [|x l IH]; simpl; [lia|].
  rewrite length_app. specialize (H x). lia.
Qed.

Lemma same_key_sym : forall a b, same_key a b = same_key b a.
Proof.
  intros a b. unfold same_key. rewrite String.eqb_sym. f_equal.
  destruct (year a), (year b); simpl; try reflexivity. apply Qeq_bool_comm.
Qed.

Lemma previous_at_most_one :
  forall c cs,
    keys_distinct cs ->
    filter (previous_of c) cs
    = match find (previous_of c) cs with
      | Some p => [p]
      | None => []
      end.
Proof.
  intros c cs. induction cs as [|x t IH]; intros Hd; simpl; [reflexivity|].
  destruct Hd as [Hx Ht].
  destruct (previous_of c x) eqn:Hp; [|now apply IH].
  f_equal. apply filter_none. intros x' Hx'.
  destruct (previous_of c x') eqn:Hp'; [|reflexivity].
  rewrite <- (Hx x' Hx'). symmetry.
  eapply previous_same_key; [exact Hp|exact Hp'].
Qed.

End GrowthCoverage.

(** The LEFT JOIN of [county_growth] drops no county row: every stored row
    is shown by a row of the view, so the view has at least as many rows as
    the table; and where no two stored rows share code and year it has
    exactly one row per stored row, in the order of the table, each joined
    with the one row of the year before if there is one. *)
Theorem county_growth_keeps_every_row :
  forall cs : list Normalizer.county_record,
    (forall c, In c cs -> exists v, In v (Views.county_growth cs) /\ Keys.shows v c)
    /\ (List.length cs <= List.length (Views.county_growth cs))%nat
    /\ (Keys.keys_distinct cs ->
        Views.county_growth cs
        = map (fun c => Views.select_growth (c, find (Views.previous_of c) cs)) cs).
Proof.
  intros cs. split; [|split].
  - intros c Hc.
    destruct (joined_rows_nonempty cs c) as [p [rest Hj]].
    exists (Views.select_growth (c, p)). split.
    + unfold Views.county_growth. apply in_map.
      unfold Views.left_join. apply in_flat_map. exists c. split; [exact Hc|].
      rewrite Hj. now left.
    + unfold Keys.shows. simpl. repeat split.
  - unfold Views.county_growth. rewrite length_map. unfold Views.left_join.
    apply flat_map_length_ge. intros c.
    destruct (joined_rows_nonempty cs c) as [p [rest Hj]]. rewrite Hj. simpl. lia.
  - intros Hd. unfold Views.county_growth, Views.left_join.
    rewrite <- (map_map (fun c => (c, find (Views.previous_of c) cs)) Views.select_growth).
    f_equal. rewrite <- flat_map_singleton. apply flat_map_ext.
    intros c. rewrite (previous_at_most_one c cs Hd).
    destruct (find (Views.previous_of c) cs); reflexivity.
Qed.

(** No division by zero reaches the reader of [county_growth]: where a code
    and a year name one row, a row whose year-before row has a null or a
    zero GDP has a null rate. *)
Theorem county_growth_null_on_zero_previous :
  forall (cs : list Normalizer.county_record) (v : Views.growth_row)
         (p : Normalizer.county_record),
    Views.unique_keys cs ->
    In v (Views.county_growth cs) ->
    In p cs ->
    Views.is_previous (Views.gr_fips_code v) (Views.gr_year v) p = true ->
    (Normalizer.gdp_billions p = None
     \/ exists g, Normalizer.gdp_billions p = Some g /\ (g == 0)%Q) ->
    Views.annual_growth_rate v = None.
Proof.
  intros cs v p Huniq Hv Hp Hprev Hzero.
  unfold Views.county_growth in Hv. apply in_map_iff in Hv.
  destruct Hv as [[c1 oc2] [<- Hj]].
  apply left_join_spec in Hj. destruct Hj as [Hc1 Hoc2]. simpl in *.
  destruct oc2 as [p0|].
  - destruct Hoc2 as [Hp0 Hprev0].
    assert (p = p0) as <-.
    { apply Huniq; auto. eapply previous_same_key; eauto. }
    destruct (Normalizer.gdp_billions c1) as [x|]; [|reflexivity].
    destruct Hzero as [-> | [g [-> Hg]]]; [reflexivity|].
    simpl. now rewrite (Qeq_eq_bool _ _ Hg).
  - destruct (Normalizer.gdp_billions c1); reflexivity.
Qed.

Lemma county_growth_null_on_zero_previous_witness :
  Views.annual_growth_rate idle_growth_2020 = None.
Proof.
  apply (county_growth_null_on_zero_previous idle_years idle_growth_2020
           (county "01001" "Autauga" "AL" (0 # 1) 2019)).
  - intros a b [<-|[<-|[]]] [<-|[<-|[]]] H; try reflexivity;
      vm_compute in H; discriminate.
  - right; left; reflexivity.
  - left; reflexivity.
  - reflexivity.
  - right. exists (0 # 1)%Q. split; reflexivity.
Defined.

(** * More on the rankings view *)

Section RankingBounds.
Import Normalizer Views.

Lemma filter_length_lt :
  forall (A : Type) (p : A -> bool) l x,
    In x l -> p x = false -> (List.length (filter p l) < List.length l)%nat.
Proof.
  intros A p l x Hin Hx. induction l as [|y l IH]; [destruct Hin|]. simpl.
  pose proof (filter_length_le p l) as Hle.
  destruct Hin as [->|Hin].
  - rewrite Hx. lia.
  - specialize (IH Hin). destruct (p y); simpl; lia.
Qed.

Lemma count_greater_below_size :
  forall partition v,
    In v partition -> (count_greater partition v < List.length partition)%nat.
Proof.
  intros partition v Hin. unfold count_greater.
  apply (filter_length_lt _ _ _ v Hin).
  unfold greater. now rewrite sql_compare_refl.
Qed.

(** The rows of a state and year are rows of that year. *)
Lemma count_greater_state_le_year :
  forall cs st y v,
    (count_greater (map gdp_billions (state_partition st y cs)) v
     <= count_greater (map gdp_billions (year_partition y cs)) v)%nat.
Proof.
  intros cs st y v. unfold count_greater, state_partition, year_partition.
  induction cs as [|c cs IH]; simpl; [lia|].
  destruct (same_year (year c) y); simpl.
  - destruct (same_state (state_code c) st); simpl; [|destruct (greater _ v); simpl; lia].
    destruct (greater (gdp_billions c) v); simpl; lia.
  - rewrite andb_false_r. exact IH.
Qed.

End RankingBounds.

(** In [county_rankings_by_year] the rank in the state starts at one, is
    never worse than the national rank, and neither rank goes beyond the
    number of rows of its partition. *)
Theorem county_rankings_bounds :
  forall (cs : list Normalizer.county_record) (v : Views.ranking_row),
    In v (Views.county_rankings_by_year cs) ->
    (1 <= Views.rank_in_state v)%nat
    /\ (Views.rank_in_state v <= Views.rank_national v)%nat
    /\ (Views.rank_in_state v
        <= List.length (Views.state_partition (Views.rk_state_code v)
                                              (Views.rk_year v) cs))%nat
    /\ (Views.rank_national v
        <= List.length (Views.year_partition (Views.rk_year v) cs))%nat.
Proof.
  intros cs v Hv. unfold Views.county_rankings_by_year in Hv.
  apply in_map_iff in Hv. destruct Hv as [c [<- Hc]].
  destruct (select_ranking_ranks cs c Hc) as [Hs Hn].
  rewrite Hs, Hn. cbn [Views.rk_state_code Views.rk_year Views.select_ranking].
  pose proof (count_greater_state_le_year cs (Normalizer.state_code c)
                (Normalizer.year c) (Normalizer.gdp_billions c)) as Hle.
  assert (Hin_s : In (Normalizer.gdp_billions c)
                     (map Normalizer.gdp_billions
                          (Views.state_partition (Normalizer.state_code c)
                                                 (Normalizer.year c) cs))).
  { apply in_map. apply filter_In. split; [exact Hc|].
    now rewrite same_state_refl, same_year_refl. }
  assert (Hin_n : In (Normalizer.gdp_billions c)
                     (map Normalizer.gdp_billions
                          (Views.year_partition (Normalizer.year c) cs))).
  { apply in_map. apply filter_In. split; [exact Hc|apply same_year_refl]. }
  apply count_greater_below_size in Hin_s.
  apply count_greater_below_size in Hin_n.
  rewrite length_map in Hin_s, Hin_n.
  repeat split; lia.
Qed.

Lemma county_rankings_bounds_witness :
  (1 <= Views.rank_in_state barbour_ranking_2020)%nat
  /\ (Views.rank_in_state barbour_ranking_2020
      <= Views.rank_national barbour_ranking_2020)%nat
  /\ (Views.rank_in_state barbour_ranking_2020
      <= List.length (Views.state_partition
                        (Views.rk_state_code barbour_ranking_2020)
                        (Views.rk_year barbour_ranking_2020) two_years))%nat
  /\ (Views.rank_national barbour_ranking_2020
      <= List.length (Views.year_partition
                        (Views.rk_year barbour_ranking_2020) two_years))%nat.
Proof.
  apply (county_rankings_bounds two_years barbour_ranking_2020).
  right; right; right; left; reflexivity.
Defined.

(** * Whole runs *)

Section RunFacts.
Import Normalizer Pipeline Run.










Lemma loop_trace :
  forall fetch ys st st',
    loop fetch ys st = Returns st' ->
    trace st' = (trace st ++ fetch_events ys)%list.
Proof.
  intros fetch ys. induction ys as [|y ys IH]; intros st st' H; simpl in *.
  - inversion H. now rewrite app_nil_r.
  - destruct (one_year fetch st y) as [st1|e] eqn:H1; [|discriminate].
    rewrite (IH _ _ H).
    assert (Ht : trace st1 = (trace st ++ [Fetch y; Sleep])%list).
    { unfold one_year in H1.
      destruct (fetch y) as [raw|]; [|now inversion H1].
      destruct (process_bea_data (Some raw)) as [[p|]|]; inversion H1; reflexivity. }
    rewrite Ht. now rewrite <- app_assoc.
Qed.


End RunFacts.





(** Whenever [main] returns, its events begin with the fetch of every year
    from 2004 to 2022 in ascending order, each followed by the pause, and
    then either stop or go on with one call of [create_database] and the
    report. *)
Theorem main_events_in_order :
  forall (fetch : Z -> option (list Normalizer.raw_row)) (db : Store.database)
         (out : Pipeline.outcome),
    Pipeline.main fetch db = Returns out ->
    Pipeline.years = map Z.of_nat (seq 2004 19)
    /\ (Pipeline.events out = Run.fetch_events Pipeline.years
        \/ exists data,
             Pipeline.events out
             = (Run.fetch_events Pipeline.years
                ++ [Pipeline.CreateDatabase data; Pipeline.Report])%list
             /\ Pipeline.file out = Store.create_database data db).
Proof.
  intros fetch db out H. split; [reflexivity|]. unfold Pipeline.main in H.
  destruct (Pipeline.loop fetch Pipeline.years
              {| Pipeline.frames := []; Pipeline.trace := [] |}) as [st|e] eqn:Hl;
    [|discriminate].
  apply loop_trace in Hl. simpl in Hl.
  destruct (Pipeline.frames st) as [|f fs]; inversion H; subst; simpl.
  - left. exact Hl.
  - right. eexists. split; [|reflexivity]. now rewrite Hl.
Qed.

Lemma main_events_in_order_witness :
  Pipeline.years = map Z.of_nat (seq 2004 19)
  /\ (Pipeline.events {| Pipeline.events := Run.fetch_events Pipeline.years;
                         Pipeline.file := Store.empty_db |}
      = Run.fetch_events Pipeline.years
      \/ exists data,
           Pipeline.events {| Pipeline.events := Run.fetch_events Pipeline.years;
                              Pipeline.file := Store.empty_db |}
           = (Run.fetch_events Pipeline.years
              ++ [Pipeline.CreateDatabase data; Pipeline.Report])%list
           /\ Pipeline.file {| Pipeline.events := Run.fetch_events Pipeline.years;
                               Pipeline.file := Store.empty_db |}
              = Store.create_database data Store.empty_db).
Proof.
  apply (main_events_in_order (fun _ => None) Store.empty_db).
  reflexivity.
Defined.

(** * Numbers in decimal *)

Section DecimalFacts.
Import Text Numeric.








End DecimalFacts.

Section DecimalRows.
Import Text Numeric Normalizer.




Lemma remove_commas_app :
  forall l1 l2 : chars,
    remove_commas (l1 ++ l2)%list = (remove_commas l1 ++ remove_commas l2)%list.
Proof. intros l1 l2. unfold remove_commas. apply filter_app. Qed.

End DecimalRows.



(** Commas are taken out of a data value wherever they stand: a comma put
    anywhere into the value leaves the GDP of the row as it is. *)
Theorem grouping_commas_ignored :
  forall (fips name before after period : string),
    Normalizer.gdp_of (Normalizer.mk_raw fips name (before ++ "," ++ after) period)
    = Normalizer.gdp_of (Normalizer.mk_raw fips name (before ++ after) period).
Proof.
  intros fips name before after period. unfold Normalizer.gdp_of. simpl.
  rewrite !of_string_app, !remove_commas_app. reflexivity.
Qed.

(** * What the fetch can raise *)

Section FetcherRaises.
Import Fetcher.




End FetcherRaises.



(** * The coverage query *)

Section CoverageFacts.
Import Normalizer Views Reporter.

Lemma same_year_sym : forall a b, same_year a b = same_year b a.
Proof.
  intros [a|] [b|]; simpl; try reflexivity. apply Qeq_bool_comm.
Qed.

Lemma list_sum_plus :
  forall (A : Type) (f g : A -> nat) l,
    list_sum (map (fun x => (f x + g x)%nat) l)
    = (list_sum (map f l) + list_sum (map g l))%nat.
Proof.
  intros A f g l. induction l as [|x l IH]; simpl; [reflexivity|]. lia.
Qed.

Lemma list_sum_indicator :
  forall (A : Type) (p : A -> bool) l,
    list_sum (map (fun x => if p x then 1%nat else 0%nat) l)
    = List.length (filter p l).
Proof.
  intros A p l. induction l as [|x l IH]; simpl; [reflexivity|].
  destruct (p x); simpl; lia.
Qed.

Lemma one_year_matches :
  forall v ys,
    years_apart ys ->
    existsb (same_year v) ys = true ->
    List.length (filter (same_year v) ys) = 1%nat.
Proof.
  intros v ys. induction ys as [|y t IH]; intros Ha He; simpl in *; [discriminate|].
  destruct Ha as [Hy Ht]. destruct (same_year v y) eqn:Hv; simpl.
  - f_equal. rewrite filter_none; [reflexivity|].
    intros y' Hy'.
    rewrite same_year_sym, (same_year_congr v y y' Hv), same_year_sym.
    now apply Hy.
  - now apply IH.
Qed.

Lemma partition_sizes :
  forall ys cs,
    years_apart ys ->
    (forall c, In c cs -> existsb (same_year (year c)) ys = true) ->
    list_sum (map (fun y => List.length (year_partition y cs)) ys)
    = List.length cs.
Proof.
  intros ys cs Ha. induction cs as [|c cs IH]; intros Hc.
  - clear Ha Hc. induction ys as [|y ys IHys]; simpl; [reflexivity|exact IHys].
  - rewrite (map_ext _ (fun y => ((if same_year (year c) y then 1 else 0)
                                  + List.length (year_partition y cs))%nat)).
    + rewrite list_sum_plus, list_sum_indicator.
      rewrite (one_year_matches _ _ Ha (Hc c (or_introl eq_refl))).
      rewrite IH; [reflexivity|]. intros c' Hc'. apply Hc. now right.
    + intros y. unfold year_partition. simpl.
      destruct (same_year (year c) y); reflexivity.
Qed.

Lemma years_apart_snoc :
  forall ys v,
    years_apart ys -> existsb (same_year v) ys = false ->
    years_apart (ys ++ [v]).
Proof.
  intros ys v. induction ys as [|y t IH]; intros Ha He; simpl in *.
  - split; [intros ? []|exact I].
  - destruct Ha as [Hy Ht]. apply orb_false_iff in He. destruct He as [Hv He].
    split; [|now apply IH].
    intros y' Hy'. apply in_app_or in Hy'. destruct Hy' as [Hy'|[<-|[]]].
    + now apply Hy.
    + now rewrite same_year_sym.
Qed.

Lemma years_seen_spec :
  forall cs,
    years_apart (years_seen cs)
    /\ (forall c, In c cs -> existsb (same_year (year c)) (years_seen cs) = true)
    /\ (forall y, In y (years_seen cs) -> exists c, In c cs /\ year c = y).
Proof.
  intros cs. unfold years_seen. induction cs as [|c cs IH] using rev_ind.
  - simpl. split; [exact I|]. split; [intros ? []|intros ? []].
  - destruct IH as (Ha & Hc & Hy). rewrite fold_left_app. simpl.
    unfold add_year at 1 3 5.
    destruct (existsb (same_year (year c)) (fold_left add_year cs [])) eqn:He.
    + split; [exact Ha|]. split.
      * intros c' Hc'. apply in_app_or in Hc'. destruct Hc' as [Hc'|[<-|[]]]; auto.
      * intros y Hin. destruct (Hy y Hin) as [c' [H1 H2]].
        exists c'. split; [apply in_or_app; now left|exact H2].
    + split; [now apply years_apart_snoc|]. split.
      * intros c' Hc'. rewrite existsb_app.
        apply in_app_or in Hc'. destruct Hc' as [Hc'|[<-|[]]].
        -- now rewrite (Hc c' Hc').
        -- simpl. rewrite same_year_refl. now rewrite orb_true_r.
      * intros y Hin. apply in_app_or in Hin. destruct Hin as [Hin|[<-|[]]].
        -- destruct (Hy y Hin) as [c' [H1 H2]].
           exists c'. split; [apply in_or_app; now left|exact H2].
        -- exists c. split; [apply in_or_app; right; now left|reflexivity].
Qed.

Lemma list_sum_insert :
  forall (A : Type) (leb : A -> A -> bool) (f : A -> nat) x l,
    list_sum (map f (insert_sorted leb x l)) = (f x + list_sum (map f l))%nat.
Proof.
  intros A leb f x l. induction l as [|z l IH]; simpl; [reflexivity|].
  destruct (leb x z); simpl; [reflexivity|]. rewrite IH. lia.
Qed.

Lemma list_sum_isort :
  forall (A : Type) (leb : A -> A -> bool) (f : A -> nat) l,
    list_sum (map f (isort leb l)) = list_sum (map f l).
Proof.
  intros A leb f l. induction l as [|x l IH]; simpl; [reflexivity|].
  now rewrite list_sum_insert, IH.
Qed.

Lemma present_codes_length :
  forall col, (List.length (present_codes col) <= List.length col)%nat.
Proof.
  induction col as [|[s|] col IH]; simpl; lia.
Qed.

Lemma nodup_length_le :
  forall l : list string, (List.length (nodup string_dec l) <= List.length l)%nat.
Proof.
  induction l as [|s l IH]; simpl; [lia|].
  destruct (in_dec string_dec s l); simpl; lia.
Qed.

End CoverageFacts.

(** The coverage query counts every stored county row in exactly one year:
    the county counts of its rows add up to the number of rows of the
    table; a row of the report never has more states than counties, and
    every year of the report is the year of some stored row. *)
Theorem coverage_counts_every_row :
  forall cs : list Normalizer.county_record,
    list_sum (map Reporter.cv_num_counties (Reporter.coverage cs)) = List.length cs
    /\ forall row,
         In row (Reporter.coverage cs) ->
         (Reporter.cv_num_states row <= Reporter.cv_num_counties row)%nat
         /\ exists c, In c cs /\ Normalizer.year c = Reporter.cv_year row.
Proof.
  intros cs. destruct (years_seen_spec cs) as (Ha & Hc & Hy). split.
  - unfold Reporter.coverage. rewrite list_sum_isort, map_map. simpl.
    now apply partition_sizes.
  - intros row Hrow. unfold Reporter.coverage in Hrow.
    apply in_isort in Hrow. apply in_map_iff in Hrow.
    destruct Hrow as [y [<- Hin]]. simpl. split.
    + etransitivity; [apply nodup_length_le|].
      etransitivity; [apply present_codes_length|]. now rewrite length_map.
    + now apply Hy.
Qed.

Example coverage_two_years :
  Reporter.coverage two_years
  = [Reporter.mk_coverage (Some (inject_Z 2019)) 1 1;
     Reporter.mk_coverage (Some (inject_Z 2020)) 1 3].
Proof. reflexivity. Qed.

Section CoverageAndSummaries.
Import Normalizer Aggregator Views Reporter.

Lemma in_present_codes :
  forall s col, In s (present_codes col) <-> In (Some s) col.
Proof.
  intros s col. induction col as [|[s'|] col IH]; simpl.
  - tauto.
  - rewrite IH. split; intros [H|H]; auto; left; congruence.
  - rewrite IH. split; [auto|]. intros [H|H]; [discriminate|exact H].
Qed.

Lemma key_of_some :
  forall r k, key_of r = Some k ->
              state_code r = Some (fst k) /\ year r = Some (snd k).
Proof.
  intros r k. unfold key_of.
  destruct (state_code r) as [st|]; [|discriminate].
  destruct (year r) as [y|]; [|discriminate].
  intros H. inversion H. simpl. split; reflexivity.
Qed.

Lemma states_of_year_nodup :
  forall y gs,
    distinct gs -> NoDup (map sum_state_code (filter (Yearly.of_year y) gs)).
Proof.
  intros y gs. induction gs as [|g t IH]; intros Hd; simpl; [constructor|].
  destruct Hd as [Hg Ht]. destruct (Yearly.of_year y g) eqn:Hy; [|now apply IH].
  simpl. constructor; [|now apply IH].
  intros Hin. apply in_map_iff in Hin. destruct Hin as [g' [Hs Hg']].
  apply filter_In in Hg'. destruct Hg' as [Hg' Hy'].
  specialize (Hg g' Hg'). unfold key_eqb, summary_key in Hg. simpl in Hg.
  rewrite Hs, String.eqb_refl in Hg. simpl in Hg.
  unfold Yearly.of_year in Hy, Hy'.
  rewrite (Qeq_bool_trans _ _ _ Hy (Qeq_bool_sym _ _ Hy')) in Hg. discriminate.
Qed.

End CoverageAndSummaries.

(** The report and the states table agree on the states of a year: for a
    year that is not NULL, the number of distinct states of the coverage
    row is the number of rows the Aggregator gives that year. *)
Theorem coverage_states_match_summaries :
  forall (cs : list Normalizer.county_record) (row : Reporter.coverage_row) (y : Q),
    In row (Reporter.coverage cs) ->
    Reporter.cv_year row = Some y ->
    Reporter.cv_num_states row
    = List.length (filter (fun g => Qeq_bool (Aggregator.sum_year g) y)
                          (Aggregator.state_summaries cs)).
Proof.
  intros cs row y Hrow Hyear. unfold Reporter.coverage in Hrow.
  apply in_isort in Hrow. apply in_map_iff in Hrow.
  destruct Hrow as [y0 [<- _]]. simpl in Hyear. subst y0. simpl.
  rewrite <- (length_map Aggregator.sum_state_code).
  destruct (group_rows_grouped cs) as (Hd & _ & Hcov).
  pose proof (group_rows_populated cs) as Hpop.
  apply Nat.le_antisymm; apply NoDup_incl_length.
  - apply NoDup_nodup.
  - intros s Hs. apply nodup_In in Hs. apply in_present_codes in Hs.
    apply in_map_iff in Hs. destruct Hs as [c [Hst Hc]].
    apply filter_In in Hc. destruct Hc as [Hc Hsame].
    destruct (Normalizer.year c) as [y'|] eqn:Hy'; [|discriminate]. simpl in Hsame.
    assert (Hk : Aggregator.key_of c = Some (s, y'))
      by (unfold Aggregator.key_of; now rewrite Hst, Hy').
    destruct (Hcov c _ Hc Hk) as [g [Hg Hgk]].
    unfold Aggregator.key_eqb, Aggregator.summary_key in Hgk. simpl in Hgk.
    apply andb_true_iff in Hgk. destruct Hgk as [Hgs Hgy].
    apply String.eqb_eq in Hgs.
    apply in_map_iff. exists g. split; [exact Hgs|].
    apply filter_In. split.
    + unfold Aggregator.state_summaries. now apply in_isort.
    + eapply Qeq_bool_trans; eauto.
  - apply (states_of_year_nodup y). unfold Aggregator.state_summaries.
    now apply distinct_isort.
  - intros s Hs. apply in_map_iff in Hs. destruct Hs as [g [Hgs Hg]].
    apply filter_In in Hg. destruct Hg as [Hg Hgy].
    unfold Aggregator.state_summaries in Hg. apply in_isort in Hg.
    destruct (Hpop g Hg) as [r [Hr Hin]].
    unfold Aggregator.in_group in Hin.
    destruct (Aggregator.key_of r) as [k|] eqn:Hk; [|discriminate].
    destruct (key_of_some r k Hk) as [Hst Hyr].
    unfold Aggregator.key_eqb, Aggregator.summary_key in Hin. simpl in Hin.
    apply andb_true_iff in Hin. destruct Hin as [Hks Hky].
    apply String.eqb_eq in Hks.
    apply nodup_In. apply in_present_codes. apply in_map_iff.
    exists r. split; [congruence|].
    apply filter_In. split; [exact Hr|].
    rewrite Hyr. simpl.
    eapply Qeq_bool_trans; [apply Qeq_bool_sym; exact Hky|exact Hgy].
Qed.

Lemma coverage_states_match_summaries_witness :
  Reporter.cv_num_states (Reporter.mk_coverage (Some (inject_Z 2020)) 1 3)
  = List.length (filter (fun g => Qeq_bool (Aggregator.sum_year g) (inject_Z 2020))
                        (Aggregator.state_summaries two_years)).
Proof.
  apply (coverage_states_match_summaries two_years
           (Reporter.mk_coverage (Some (inject_Z 2020)) 1 3) (inject_Z 2020)).
  - right; left; reflexivity.
  - reflexivity.
Defined.

(** * The single-year script: sorting *)

Section OrderOfNames.

Lemma ascii_compare_refl : forall c, Ascii.compare c c = Eq.
Proof. intros c. unfold Ascii.compare. apply N.compare_refl. Qed.

Lemma string_compare_refl : forall s, String.compare s s = Eq.
Proof.
  induction s as [|c s IH]; simpl; [reflexivity|].
  now rewrite ascii_compare_refl.
Qed.

Lemma ascii_compare_lt_trans :
  forall a b c,
    Ascii.compare a b = Lt -> Ascii.compare b c = Lt -> Ascii.compare a c = Lt.
Proof.
  intros a b c. unfold Ascii.compare. rewrite !N.compare_lt_iff. lia.
Qed.

Lemma string_compare_lt_trans :
  forall s1 s2 s3,
    String.compare s1 s2 = Lt -> String.compare s2 s3 = Lt ->
    String.compare s1 s3 = Lt.
Proof.
  induction s1 as [|a s1 IH]; intros [|b s2] [|c s3]; simpl;
    try discriminate; try reflexivity.
  destruct (Ascii.compare a b) eqn:Hab; try discriminate;
    destruct (Ascii.compare b c) eqn:Hbc; try discriminate; intros H1 H2.
  - apply Ascii.compare_eq_iff in Hab. apply Ascii.compare_eq_iff in Hbc.
    subst. rewrite ascii_compare_refl. eapply IH; eauto.
  - apply Ascii.compare_eq_iff in Hab. subst. now rewrite Hbc.
  - apply Ascii.compare_eq_iff in Hbc. subst. now rewrite Hab.
  - now rewrite (ascii_compare_lt_trans a b c Hab Hbc).
Qed.

End OrderOfNames.

Section OrderOfRows.
Import SingleYear Script.

Lemma name_compare_refl : forall a, name_compare a a = Eq.
Proof. intros [s|]; simpl; [apply string_compare_refl|reflexivity]. Qed.

Lemma name_compare_eq : forall a b, name_compare a b = Eq -> a = b.
Proof.
  intros [x|] [y|]; simpl; try discriminate; [|reflexivity].
  intros H. f_equal. now apply String.compare_eq_iff.
Qed.

Lemma name_compare_antisym :
  forall a b, name_compare a b = CompOpp (name_compare b a).
Proof.
  intros [x|] [y|]; simpl; try reflexivity. apply String.compare_antisym.
Qed.

Lemma name_compare_lt_trans :
  forall a b c,
    name_compare a b = Lt -> name_compare b c = Lt -> name_compare a c = Lt.
Proof.
  intros [x|] [y|] [z|]; simpl; try discriminate; try reflexivity.
  apply string_compare_lt_trans.
Qed.

Lemma gdp_compare_antisym :
  forall a b, gdp_compare a b = CompOpp (gdp_compare b a).
Proof.
  intros [x|] [y|]; simpl; try reflexivity. symmetry. apply Qcompare_antisym.
Qed.

Lemma gdp_compare_trans :
  forall a b c,
    gdp_compare a b <> Gt -> gdp_compare b c <> Gt -> gdp_compare a c <> Gt.
Proof.
  intros [x|] [y|] [z|]; simpl; try congruence.
  rewrite <- !Qle_alt. intros H1 H2. lra.
Qed.

Lemma in_order_total : forall x y, in_order x y = false -> in_order y x = true.
Proof.
  intros x y. unfold in_order.
  rewrite (name_compare_antisym (StateName y) (StateName x)).
  rewrite (gdp_compare_antisym (GDP (cleaned y)) (GDP (cleaned x))).
  destruct (name_compare (StateName x) (StateName y)); simpl; try discriminate;
    [|reflexivity].
  destruct (gdp_compare (GDP (cleaned x)) (GDP (cleaned y))); simpl;
    try discriminate; reflexivity.
Qed.

Lemma in_order_trans :
  forall x y z, in_order x y = true -> in_order y z = true -> in_order x z = true.
Proof.
  intros x y z. unfold in_order.
  destruct (name_compare (StateName x) (StateName y)) eqn:Hxy; try discriminate;
    destruct (name_compare (StateName y) (StateName z)) eqn:Hyz; try discriminate.
  - apply name_compare_eq in Hxy. apply name_compare_eq in Hyz.
    rewrite Hxy, Hyz, name_compare_refl.
    destruct (gdp_compare (GDP (cleaned x)) (GDP (cleaned y))) eqn:H1;
      try discriminate;
      destruct (gdp_compare (GDP (cleaned y)) (GDP (cleaned z))) eqn:H2;
      try discriminate; intros _ _;
      (destruct (gdp_compare (GDP (cleaned x)) (GDP (cleaned z))) eqn:H3;
       [reflexivity|reflexivity|]);
      exfalso;
      apply (gdp_compare_trans (GDP (cleaned x)) (GDP (cleaned y)) (GDP (cleaned z)));
      congruence.
  - apply name_compare_eq in Hxy. rewrite Hxy, Hyz. reflexivity.
  - apply name_compare_eq in Hyz. rewrite <- Hyz, Hxy. reflexivity.
  - now rewrite (name_compare_lt_trans _ _ _ Hxy Hyz).
Qed.

End OrderOfRows.

Section SortedGeneric.
Context {A : Type} (before : A -> A -> bool).
Hypothesis before_total : forall x y, before x y = false -> before y x = true.
Hypothesis before_trans :
  forall x y z, before x y = true -> before y z = true -> before x z = true.

Lemma insert_ordered_by :
  forall x l, ordered_by before l -> ordered_by before (insert_sorted before x l).
Proof.
  intros x l. induction l as [|z l IH]; intros Hl; simpl.
  - split; [intros ? []|exact I].
  - destruct Hl as [Hz Hl]. destruct (before x z) eqn:Hxz; simpl.
    + split; [|split; assumption].
      intros y [<-|Hy]; [exact Hxz|].
      eapply before_trans; [exact Hxz|now apply Hz].
    + split; [|now apply IH].
      intros y Hy. apply in_insert_sorted in Hy. destruct Hy as [->|Hy].
      * now apply before_total.
      * now apply Hz.
Qed.

Lemma isort_ordered_by : forall l, ordered_by before (isort before l).
Proof.
  induction l as [|x l IH]; simpl; [exact I|now apply insert_ordered_by].
Qed.

End SortedGeneric.

Section SortedFacts.
Context {A : Type} (before : A -> A -> bool).

Lemma insert_sorted_perm :
  forall x l, Permutation (insert_sorted before x l) (x :: l).
Proof.
  intros x l. induction l as [|z l IH]; simpl; [reflexivity|].
  destruct (before x z); [reflexivity|].
  rewrite IH. apply perm_swap.
Qed.

Lemma isort_perm : forall l, Permutation (isort before l) l.
Proof.
  induction l as [|x l IH]; simpl; [reflexivity|].
  rewrite insert_sorted_perm. now constructor.
Qed.

Lemma ordered_by_split :
  forall l1 a l2,
    ordered_by before (l1 ++ a :: l2) ->
    (forall x, In x l1 -> before x a = true)
    /\ (forall z, In z l2 -> before a z = true).
Proof.
  induction l1 as [|y l1 IH]; intros a l2 H; simpl in *.
  - destruct H as [Ha _]. split; [intros ? []|exact Ha].
  - destruct H as [Hy H]. destruct (IH a l2 H) as [H1 H2]. split; [|exact H2].
    intros x [<-|Hx]; [|now apply H1].
    apply Hy. apply in_or_app. right. now left.
Qed.

End SortedFacts.

Section ScriptFacts.
Import SingleYear Script.

Lemma in_order_names :
  forall x y, in_order x y = true -> name_compare (StateName x) (StateName y) <> Gt.
Proof.
  intros x y. unfold in_order.
  destruct (name_compare (StateName x) (StateName y)); congruence.
Qed.

(** Rows in the order of the sort have the rows of a state together. *)
Lemma ordered_rows_together :
  forall round3 l,
    ordered_by in_order l -> together (map (select round3) l).
Proof.
  intros round3 l Ho l1 a l2 s Heq Ha [x [Hx Hxs]] z Hz Hzs.
  apply map_eq_app in Heq. destruct Heq as (m1 & m2' & -> & <- & Heq).
  apply map_eq_cons in Heq. destruct Heq as (a' & m2 & -> & <- & <-).
  apply in_map_iff in Hx. destruct Hx as [x' [<- Hx']].
  apply in_map_iff in Hz. destruct Hz as [z' [<- Hz']].
  simpl in *.
  destruct (ordered_by_split in_order m1 a' m2 Ho) as [H1 H2].
  pose proof (in_order_names _ _ (H1 x' Hx')) as Hxa.
  pose proof (in_order_names _ _ (H2 z' Hz')) as Haz.
  rewrite Hxs in Hxa. rewrite Hzs in Haz.
  destruct (StateName a') as [t|]; simpl in *; [|congruence].
  rewrite String.compare_antisym in Haz.
  destruct (String.compare s t) eqn:Hst; simpl in *; try congruence.
  apply String.compare_eq_iff in Hst. subst. now elim Ha.
Qed.

Lemma named_true :
  forall s row, named (Some s) row = true <-> o_StateName row = Some s.
Proof.
  intros s row. unfold named. destruct (o_StateName row) as [a|].
  - rewrite String.eqb_eq. split; congruence.
  - split; discriminate.
Qed.

Lemma no_state_no_place :
  forall name before,
    (forall s, name = Some s -> forall x, In x before -> o_StateName x <> Some s) ->
    filter (named name) before = [].
Proof.
  intros name before H. apply filter_none. intros x Hx.
  destruct name as [s|]; [|unfold named; now destruct (o_StateName x)].
  destruct (named (Some s) x) eqn:Hn; [|reflexivity].
  apply named_true in Hn. now elim (H s eq_refl x Hx).
Qed.

(** The loop of lines 91-109, after the rows [before], when the counter
    stands where the rows of the current state left it. *)
Lemma print_rows_placed :
  forall df rest before current state_rank,
    df = (before ++ rest)%list ->
    together df ->
    ((before = [] /\ current = None)
     \/ exists b last, before = (b ++ [last])%list
                       /\ current = o_StateName last) ->
    (forall s, current = Some s ->
               state_rank = S (List.length (filter (named (Some s)) before))) ->
    county_lines (print_rows df current state_rank rest) = placed before rest.
Proof.
  intros df rest. induction rest as [|row rest IH];
    intros before current state_rank Hdf Htog Hlast Hrank; [reflexivity|].
  assert (Hdf' : df = ((before ++ [row]) ++ rest)%list)
    by (rewrite <- app_assoc; exact Hdf).
  assert (Hlast' : ((before ++ [row])%list = [] /\ o_StateName row = None)
                   \/ exists b last, (before ++ [row])%list = (b ++ [last])%list
                                     /\ o_StateName row = o_StateName last)
    by (right; exists before, row; split; reflexivity).
  simpl. destruct (state_changed current (o_StateName row)) eqn:Hch.
  - assert (Hfresh : filter (named (o_StateName row)) before = []).
    { apply no_state_no_place. intros s Hs x Hx Hxs.
      destruct Hlast as [[-> _]|[b [last [-> Hcur]]]]; [destruct Hx|].
      assert (Hl : o_StateName last <> Some s).
      { intros Hl. rewrite <- Hcur in Hl. rewrite Hl, Hs in Hch.
        simpl in Hch. now rewrite String.eqb_refl in Hch. }
      apply in_app_or in Hx. destruct Hx as [Hx|[<-|[]]]; [|contradiction].
      rewrite <- app_assoc in Hdf. simpl in Hdf.
      apply (Htog b last (row :: rest) s Hdf Hl (ex_intro _ x (conj Hx Hxs)) row);
        [now left|exact Hs]. }
    simpl. unfold place at 1. rewrite Hfresh. simpl. f_equal.
    apply (IH _ _ _ Hdf' Htog Hlast').
    intros s Hs. rewrite filter_app, length_app. rewrite <- Hs, Hfresh. simpl.
    unfold named. rewrite Hs. now rewrite String.eqb_refl.
  - unfold state_changed in Hch.
    destruct current as [a|]; [|discriminate].
    destruct (o_StateName row) as [b|] eqn:Hrow; [|discriminate].
    apply negb_false_iff, String.eqb_eq in Hch. subst b.
    simpl. unfold place at 1. rewrite Hrow, <- (Hrank a eq_refl). f_equal.
    apply (IH _ _ _ Hdf' Htog).
    + right. exists before, row. split; [reflexivity|now rewrite Hrow].
    + intros s Hs. inversion Hs; subst s. rewrite filter_app, length_app. simpl.
      unfold named at 2. rewrite Hrow, String.eqb_refl. simpl.
      rewrite (Hrank a eq_refl). lia.
Qed.

(** Whatever the order of the rows, the loop prints each of them once and
    in order, and a row without a state name has rank one. *)
Lemma print_rows_all :
  forall df rows current state_rank,
    map snd (county_lines (print_rows df current state_rank rows)) = rows
    /\ forall k row,
         In (k, row) (county_lines (print_rows df current state_rank rows)) ->
         o_StateName row = None -> k = 1%nat.
Proof.
  intros df rows. induction rows as [|r rows IH]; intros current state_rank.
  - split; [reflexivity|intros ? ? []].
  - simpl. destruct (state_changed current (o_StateName r)) eqn:Hch; simpl.
    + destruct (IH (o_StateName r) 2%nat) as [H1 H2]. split; [now f_equal|].
      intros k row [Heq|Hin] Hnone; [now inversion Heq|eauto].
    + destruct (IH current (S state_rank)) as [H1 H2]. split; [now f_equal|].
      intros k row [Heq|Hin] Hnone; [|eauto].
      inversion Heq; subst. rewrite Hnone in Hch.
      unfold state_changed in Hch. destruct current; discriminate.
Qed.

End ScriptFacts.

(** [print_gdp_by_state] prints every row of the frame once, in the order
    of the frame, and gives rank one to every row that has no state name:
    such a row always starts a state of its own. *)
Theorem print_gdp_by_state_every_row :
  forall df : list Script.out_row,
    map snd (Script.county_lines (Script.print_gdp_by_state df)) = df
    /\ forall k row,
         In (k, row) (Script.county_lines (Script.print_gdp_by_state df)) ->
         Script.o_StateName row = None -> k = 1%nat.
Proof.
  intros df. unfold Script.print_gdp_by_state. simpl.
  apply print_rows_all.
Qed.

(** When the rows of each state are together in the frame, the rank
    [print_gdp_by_state] prints on a row is one plus the number of earlier
    rows of the same state. *)
Theorem print_gdp_by_state_ranks :
  forall df : list Script.out_row,
    Script.together df ->
    Script.county_lines (Script.print_gdp_by_state df) = Script.placed [] df.
Proof.
  intros df Htog. unfold Script.print_gdp_by_state. simpl.
  apply print_rows_placed; auto.
  intros s Hs. discriminate.
Qed.

Lemma print_gdp_by_state_ranks_witness :
  Script.county_lines
    (Script.print_gdp_by_state
       (map (Script.select (fun q => q))
            (Script.sort_values (map Script.name_row sample_batch))))
  = Script.placed []
      (map (Script.select (fun q => q))
           (Script.sort_values (map Script.name_row sample_batch))).
Proof.
  apply print_gdp_by_state_ranks.
  apply ordered_rows_together.
  apply isort_ordered_by; [apply in_order_total|apply in_order_trans].
Defined.


(** The script as a whole.  Without a reply or without the envelope it
    prints and saves nothing; on an envelope with no row it fails with
    [KeyError]; on rows it prints and saves the sorted frame, and the rank
    on each printed row is its place among the rows of its state: one plus
    the number of rows of that state before it. *)
Theorem script_prints_ranked_rows :
  forall (round3 : Q -> Q),
    Script.script round3 Script.RequestFailed = Returns []
    /\ Script.script round3 Script.NoEnvelope = Returns []
    /\ Script.script round3 (Script.Rows []) = Raises "KeyError"
    /\ forall r rows,
         let df := map (Script.select round3)
                       (Script.sort_values (map Script.name_row (r :: rows))) in
         Script.script round3 (Script.Rows (r :: rows))
         = Returns [Script.Print (Script.print_gdp_by_state df); Script.SaveCsv df]
         /\ Script.county_lines (Script.print_gdp_by_state df) = Script.placed [] df.
Proof.
  intros round3. repeat (split; [reflexivity|]).
  intros r rows df. split.
  - unfold Script.script.
    change (Script.get_county_gdp_by_state round3 (Script.Rows (r :: rows)))
      with (Returns df).
    assert (Hlen : List.length df = S (List.length rows)).
    { unfold df. rewrite length_map.
      rewrite (Permutation_length (isort_perm Script.in_order _)).
      simpl. now rewrite length_map. }
    destruct df as [|d ds]; [discriminate|reflexivity].
  - apply print_rows_placed with (before := []) (current := None); auto.
    + apply ordered_rows_together.
      apply isort_ordered_by; [apply in_order_total|apply in_order_trans].
    + intros s Hs. discriminate.
Qed.

Example script_sample_ranks :
  map (fun p => (fst p, Script.o_County (snd p), Script.o_StateName (snd p)))
      (Script.county_lines
         (Script.print_gdp_by_state
            (map (Script.select (fun q => q))
                 (Script.sort_values
                    (map Script.name_row
                         [Normalizer.mk_raw "01003" "Baldwin, AL" "(D)" "2022";
                          Normalizer.mk_raw "02020" "Anchorage, AK" "50" "2022";
                          Normalizer.mk_raw "01001" "Autauga, AL" "7" "2022";
                          Normalizer.mk_raw "00000" "United States" "99" "2022";
                          Normalizer.mk_raw "01005" "Barbour, AL" "9" "2022"])))))
  = [(1%nat, "Barbour, AL", Some "Alabama");
     (2%nat, "Autauga, AL", Some "Alabama");
     (3%nat, "Baldwin, AL", Some "Alabama");
     (1%nat, "Anchorage, AK", Some "Alaska");
     (1%nat, "United States", None)].
Proof. vm_compute. reflexivity. Qed.
